(** * The resumable tweet-collection scripts, embedded and checked

    The repository holds several generations of one scraper script:
    [1k.tweet.py], [1k.tweet_2.py], [1k.tweet_3.py],
    [Dynamic_scrapping_X.py] and [Dynamic_scrapping/init.py].  Each one
    rehydrates a checkpoint and a set of already stored tweet ids, then
    loops: search, store the new tweets in a CSV file, save the checkpoint,
    sleep.  [main2.py], the oldest, makes one search and writes its result.

    The embedding is shallow.  Everything outside the scripts (the remote
    search service, the wall clock, the random generator and the two files
    the scripts own) is gathered in a [World]; a script function is a
    function from worlds to results, written with a small state and error
    monad.  One module per script keeps the names of the source.

    What is abstracted: the CSV file is the list of its rows (so a file of
    size zero is the empty list) and a checkpoint file is what [json.load]
    makes of it; times and delays are rationals, where Python has floats;
    login, logging and printing are left out; writing to either file does
    not fail, and a row counts as written when [writerow] returns (the
    buffer of the file object is not modelled). *)

From Stdlib Require Import ZArith QArith Qminmax Lqa String List.
From stdpp Require Import base gmap strings list pretty.

#[local] Set Warnings "-clear-no-such-hyp".

Open Scope string_scope.
Open Scope list_scope.
Open Scope Z_scope.

(** ** Python values that travel through a checkpoint *)

(** A checkpoint is a JSON object whose values are [null], integers or
    strings.  [VIso t] stands for the string
    [datetime.fromtimestamp(t).isoformat()], whose calendar rendering is
    not needed here. *)
Inductive PyVal : Type :=
| VNone
| VInt (z : Z)
| VStr (s : string)
| VIso (t : Q).

#[global] Instance Q_eq_dec : EqDecision Q.
Proof. solve_decision. Defined.

#[global] Instance PyVal_eq_dec : EqDecision PyVal.
Proof. solve_decision. Defined.

(** [x == n] for an integer literal [n]. *)
Definition eq_int (v : PyVal) (n : Z) : bool :=
  match v with
  | VInt z => Z.eqb z n
  | _ => false
  end.

(** What [json.load] can give back: an object, or some other value. *)
Inductive Json : Type :=
| JDict (d : gmap string PyVal)
| JValue (v : PyVal).

(** Content of a checkpoint file: text that [json.load] rejects, or text
    that parses. *)
Inductive FileContent : Type :=
| Unparsable
| Parsed (j : Json).

(** ** Tweets, pages and the CSV file *)

Module Tweet.
Record t : Type := mk {
  id : string;
  screen_name : string;
  text : string;
  created_at : string;
  retweet_count : Z;
  favorite_count : Z;
  reply_count : Z
}.
End Tweet.

(** A CSV row as [csv.reader] yields it and [csv.writer] takes it. *)
Definition Row : Type := list string.

(** The row every [save_tweets_batch] hands to [writer.writerow]. *)
Definition tweet_row (tw : Tweet.t) : Row :=
  [ Tweet.id tw;
    String.append "@" (Tweet.screen_name tw);
    Tweet.text tw;
    Tweet.created_at tw;
    pretty (Tweet.retweet_count tw);
    pretty (Tweet.favorite_count tw);
    pretty (Tweet.reply_count tw) ].

Definition HEADER : Row :=
  ["ID"; "Username"; "Text"; "Created At"; "Retweets"; "Likes"; "Replies"].

(** What [await result.next()] does: raise, or return another page of
    which the scripts read [next_cursor] only. *)
Inductive Advance : Type :=
| NextRaises
| NextPage (tweets : list Tweet.t) (next_cursor : option string).

(** A [twikit] result page: its tweets, its continuation token and the
    behaviour of its [next()] method. *)
Record Page : Type := mkPage {
  tweets : list Tweet.t;
  next_cursor : option string;
  next : Advance
}.

(** The attribute [rate_limit_reset] of a [TooManyRequests] exception, as
    [getattr(e, 'rate_limit_reset', default)] sees it. *)
Inductive Attr : Type :=
| Absent
| Present (v : option Q).

(** One answer of [client.search_tweet]. *)
Inductive Reply : Type :=
| Result (p : Page)
| TooManyRequests (rate_limit_reset : Attr)
| OtherException.

(** [hasattr(r, 'next_cursor') and r.next_cursor] *)
Definition usable (c : option string) : bool :=
  match c with
  | Some s => negb (String.eqb s "")
  | None => false
  end.

Definition cursor_val (c : option string) : PyVal :=
  match c with
  | Some s => VStr s
  | None => VNone
  end.

(** ** The world around a script *)

Inductive Event : Type :=
| EvSearch (query : string) (product : PyVal) (count : Z) (cursor : PyVal)
| EvNext
| EvSleep (d : Q)
| EvWriteRow (r : Row)
| EvSaveCheckpoint (d : gmap string PyVal).

Inductive Exn : Type :=
| KeyError
| TypeError
| AttributeError
| IndexError
| JSONDecodeError
| Exception.

Record World : Type := mkWorld {
  clock : Q;                              (* time.time() *)
  replies : list Reply;                   (* what the service will answer *)
  rng : nat -> Z;                         (* the random source *)
  draws : nat;                            (* random numbers used so far *)
  tweets_file : option (list Row);        (* TWEETS_FILE, None when missing *)
  checkpoint_file : option FileContent;   (* CHECKPOINT_FILE *)
  journal : list Event                    (* effects so far, oldest first *)
}.

(** A call returns, dies with an uncaught exception, or is still waiting
    for the service when the scripted replies are used up (or when a loop
    has run for the allotted number of rounds). *)
Inductive Res (A : Type) : Type :=
| Done (a : A) (w : World)
| Raised (e : Exn) (w : World)
| Pending (w : World).
Arguments Done {A} a w.
Arguments Raised {A} e w.
Arguments Pending {A} w.

Definition world_of {A} (r : Res A) : World :=
  match r with
  | Done _ w => w
  | Raised _ w => w
  | Pending w => w
  end.

Definition M (A : Type) : Type := World -> Res A.

Definition ret {A} (a : A) : M A := fun w => Done a w.

Definition bind {A B} (m : M A) (k : A -> M B) : M B :=
  fun w =>
    match m w with
    | Done a w' => k a w'
    | Raised e w' => Raised e w'
    | Pending w' => Pending w'
    end.

Definition raise {A} (e : Exn) : M A := fun w => Raised e w.

(** [try: m  except Exception: handler] *)
Definition catch {A} (m : M A) (handler : M A) : M A :=
  fun w =>
    match m w with
    | Raised _ w' => handler w'
    | r => r
    end.

Notation "x <- m ;; k" := (bind m (fun x => k))
  (at level 100, m at next level, right associativity).
Notation "m ;;; k" := (bind m (fun _ => k))
  (at level 100, right associativity).

Definition emit (e : Event) (w : World) : World :=
  mkWorld (clock w) (replies w) (rng w) (draws w)
          (tweets_file w) (checkpoint_file w) (journal w ++ [e]).

(** [time.time()] *)
Definition time_time : M Q := fun w => Done (clock w) w.

(** [await asyncio.sleep(d)] *)
Definition sleep (d : Q) : M unit :=
  fun w =>
    Done tt (emit (EvSleep d)
      (mkWorld (clock w + d)%Q (replies w) (rng w) (draws w)
               (tweets_file w) (checkpoint_file w) (journal w))).

(** [random.randint(a, b)]: some integer of [a..b]. *)
Definition randint (a b : Z) : M Z :=
  fun w =>
    Done (a + rng w (draws w) mod (b - a + 1))
      (mkWorld (clock w) (replies w) (rng w) (S (draws w))
               (tweets_file w) (checkpoint_file w) (journal w)).

(** [await client.search_tweet(query, product, count=count, cursor=cursor)]
    seen from the caller: the next scripted reply. *)
Definition search_tweet (query : string) (product : PyVal) (count : Z)
    (cursor : PyVal)
  : M Reply :=
  fun w =>
    match replies w with
    | [] => Pending w
    | r :: rs =>
        Done r (emit (EvSearch query product count cursor)
          (mkWorld (clock w) rs (rng w) (draws w)
                   (tweets_file w) (checkpoint_file w) (journal w)))
    end.

(** [open(TWEETS_FILE, 'a')]: the file exists from then on. *)
Definition open_append : M unit :=
  fun w =>
    Done tt (mkWorld (clock w) (replies w) (rng w) (draws w)
               (Some (default [] (tweets_file w))) (checkpoint_file w)
               (journal w)).

(** [writer.writerow(row)] on the file opened for appending. *)
Definition writerow (r : Row) : M unit :=
  fun w =>
    Done tt (emit (EvWriteRow r)
      (mkWorld (clock w) (replies w) (rng w) (draws w)
               (Some (default [] (tweets_file w) ++ [r])) (checkpoint_file w)
               (journal w))).

(** [json.dump(data, f)] on the checkpoint file opened with ['w']. *)
Definition dump_checkpoint (d : gmap string PyVal) : M unit :=
  fun w =>
    Done tt (emit (EvSaveCheckpoint d)
      (mkWorld (clock w) (replies w) (rng w) (draws w)
               (tweets_file w) (Some (Parsed (JDict d))) (journal w))).

(** [await result.next()], then [hasattr(n, 'next_cursor') and n.next_cursor]:
    [None] when the call raises. *)
Definition call_next (p : Page) : M (option (option string)) :=
  fun w =>
    Done (match next p with
          | NextRaises => None
          | NextPage _ c => Some c
          end) (emit EvNext w).

(** ** The helpers every script repeats *)

(** [init_existing_ids] (inlined in [1k.tweet.py] and [1k.tweet_2.py]):
    skip the first row, then collect the first field of every row that is
    not empty. *)
Definition init_existing_ids (f : option (list Row)) : gset string :=
  match f with
  | None => ∅
  | Some rows =>
      foldl (fun ids row =>
               match row with
               | [] => ids
               | x :: _ => {[x]} ∪ ids
               end) ∅ (tail rows)
  end.

(** [save_tweets_batch(tweets, writer, existing_ids)], the same loop in
    all five scripts: the set is threaded explicitly, the writer is the
    world's file.  The two [Dynamic_scrapping] scripts wrap the write in a
    [try] that skips the tweet when the write raises, which it does not do
    here. *)
Fixpoint save_tweets_batch (tweets : list Tweet.t) (existing_ids : gset string)
    (new_count : Z) : M (Z * gset string) :=
  match tweets with
  | [] => ret (new_count, existing_ids)
  | tw :: rest =>
      if decide (Tweet.id tw ∈ existing_ids)
      then save_tweets_batch rest existing_ids new_count
      else
        writerow (tweet_row tw) ;;;
        save_tweets_batch rest ({[Tweet.id tw]} ∪ existing_ids) (new_count + 1)
  end.

(** [d[k]] on a dict. *)
Definition getitem (d : gmap string PyVal) (k : string) : M PyVal :=
  match d !! k with
  | Some v => ret v
  | None => raise KeyError
  end.

(** [d.get(k, dflt)] *)
Definition dict_get (d : gmap string PyVal) (k : string) (dflt : PyVal) : PyVal :=
  default dflt (d !! k).

(** An operand of [<] with an integer on the other side. *)
Definition as_int (v : PyVal) : M Z :=
  match v with
  | VInt z => ret z
  | _ => raise TypeError
  end.

(** [json.load(f)] *)
Definition json_load (c : FileContent) : Exn + Json :=
  match c with
  | Unparsable => inl JSONDecodeError
  | Parsed j => inr j
  end.

(** [data.get(k)] on whatever [json.load] returned: only a dict has it. *)
Definition json_get (j : Json) (k : string) : Exn + PyVal :=
  match j with
  | JDict d => inr (dict_get d k VNone)
  | JValue _ => inl AttributeError
  end.

(** [checkpoint[k]] on whatever [load_checkpoint] returned. *)
Definition json_getitem (j : Json) (k : string) : M PyVal :=
  match j with
  | JDict d => getitem d k
  | JValue _ => raise TypeError
  end.

(** [checkpoint.get(k, dflt)] on whatever [load_checkpoint] returned. *)
Definition json_get_default (j : Json) (k : string) (dflt : PyVal) : M PyVal :=
  match j with
  | JDict d => ret (dict_get d k dflt)
  | JValue _ => raise AttributeError
  end.

(** ** [1k.tweet.py] *)

Module Tweet1k.

Definition QUERY : string := "(ثمانية OR ثمانيه) (to:thmanyahCompany) lang:ar".
Definition MAX_TWEETS : Z := 1000.
Definition BATCH_SIZE : Z := 20.

(** [safe_search] calls itself after a rate limit; every call uses up one
    reply, so the number of replies left bounds the depth. *)
Fixpoint safe_search_rec (depth : nat) (query : string) (product : PyVal)
    (count : Z) (cursor : PyVal) : M (option Page) :=
  match depth with
  | O => fun w => Pending w
  | S depth' =>
      r <- search_tweet query product count cursor ;;
      match r with
      | Result p => ret (Some p)
      | TooManyRequests a =>
          t0 <- time_time ;;
          reset_time <- match a with
                        | Absent => ret (t0 + 900)%Q
                        | Present (Some v) => ret v
                        | Present None => raise TypeError
                        end ;;
          t1 <- time_time ;;
          let wait_time := (Qmax (reset_time - t1) 0 + 10)%Q in
          sleep wait_time ;;;
          safe_search_rec depth' query product count cursor
      | OtherException =>
          sleep 60 ;;;
          ret None
      end
  end.

Definition safe_search (query : string) (product : PyVal) (count : Z)
    (cursor : PyVal) : M (option Page) :=
  fun w => safe_search_rec (length (replies w)) query product count cursor w.

Definition DEFAULT : gmap string PyVal :=
  <["count" := VInt 0]> (<["cursor" := VNone]> (<["product" := VStr "Latest"]> ∅)).

Definition load_checkpoint : M Json :=
  fun w =>
    Done (match checkpoint_file w with
          | Some c =>
              match json_load c with
              | inr j => j
              | inl _ => JDict DEFAULT
              end
          | None => JDict DEFAULT
          end) w.

Definition save_checkpoint (count : Z) (cursor product : PyVal) : M unit :=
  dump_checkpoint
    (<["count" := VInt count]> (<["cursor" := cursor]> (<["product" := product]> ∅))).

Definition products : list string := ["Top"; "Latest"; "Media"].

(** [products.index(product) if product in products else 0], then the
    entry after it, cyclically. *)
Definition next_product (product : PyVal) : PyVal :=
  let current_index :=
    match product with
    | VStr s => default 0%nat (fst <$> list_find (fun x => x = s) products)
    | _ => 0%nat
    end in
  let next_index := ((current_index + 1) mod length products)%nat in
  VStr (nth next_index products "").

Record Loop : Type := mkLoop {
  collected_count : Z;
  cursor : PyVal;
  product : PyVal;
  existing_ids : gset string
}.

(** One round of the [while] loop, after the search: what is done with
    its result. *)
Definition handle (st : Loop) (result : option Page) : M Loop :=
  match result with
  | None =>
      let product' := next_product (product st) in
      save_checkpoint (collected_count st) VNone product' ;;;
      ret (mkLoop (collected_count st) VNone product' (existing_ids st))
  | Some result =>
      match tweets result with
      | [] =>
          let product' := next_product (product st) in
          save_checkpoint (collected_count st) VNone product' ;;;
          ret (mkLoop (collected_count st) VNone product' (existing_ids st))
      | _ :: _ =>
          saved <- save_tweets_batch (tweets result) (existing_ids st) 0 ;;
          let '(new_count, ids) := saved in
          let collected := collected_count st + new_count in
          paging <-
            (if usable (next_cursor result)
             then ret (cursor_val (next_cursor result), product st)
             else
               n <- call_next result ;;
               match n with
               | Some c =>
                   if usable c then ret (cursor_val c, product st)
                   else ret (VNone, next_product (product st))
               | None => ret (VNone, product st)
               end) ;;
          let '(cursor', product') := paging in
          save_checkpoint collected cursor' product' ;;;
          sleep 10 ;;;
          ret (mkLoop collected cursor' product' ids)
      end
  end.

Definition body (st : Loop) : M Loop :=
  result <- safe_search QUERY (product st) BATCH_SIZE (cursor st) ;;
  handle st result.

Fixpoint loop (rounds : nat) (st : Loop) : M Loop :=
  if collected_count st <? MAX_TWEETS then
    match rounds with
    | O => fun w => Pending w
    | S rounds' => st' <- body st ;; loop rounds' st'
    end
  else ret st.

(** [run_all_operations], from the point where the client is there. *)
Definition run_all_operations (rounds : nat) : M Loop :=
  checkpoint <- load_checkpoint ;;
  count <- json_getitem checkpoint "count" ;;
  cursor <- json_get_default checkpoint "cursor" VNone ;;
  product <- json_get_default checkpoint "product" (VStr "Latest") ;;
  existing_ids <- (fun w => Done (init_existing_ids (tweets_file w)) w) ;;
  open_append ;;;
  (if eq_int count 0 then writerow HEADER else ret tt) ;;;
  collected_count <- as_int count ;;
  loop rounds (mkLoop collected_count cursor product existing_ids).

End Tweet1k.

(** [not os.path.exists(TWEETS_FILE) or os.path.getsize(TWEETS_FILE) == 0] *)
Definition new_file (f : option (list Row)) : bool :=
  match f with
  | None => true
  | Some [] => true
  | Some (_ :: _) => false
  end.

Definition read_existing_ids : M (gset string) :=
  fun w => Done (init_existing_ids (tweets_file w)) w.

Definition is_new_file : M bool :=
  fun w => Done (new_file (tweets_file w)) w.

(** [datetime.now().isoformat()] *)
Definition now_isoformat : M PyVal :=
  fun w => Done (VIso (clock w)) w.

(** ** [1k.tweet_3.py] *)

Module Tweet1k_3.
Section WithQueryHash.

(** [hashlib.md5(QUERY_NORM.encode('utf-8')).hexdigest()[:10]] *)
Variable QUERY_HASH : string.

Definition QUERY : string :=
  "(@HungerStation OR هنقرستيشن OR هانقرستيشن) -كوبون -كود until:2025-09-04 since:2025-08-26".
Definition PRODUCT : PyVal := VStr "Latest".
Definition MAX_TWEETS : Z := 1000.
Definition BATCH_SIZE : Z := 20.

(** The handler of [1k.tweet.py] again, with the product fixed. *)
Definition safe_search (query : string) (count : Z) (cursor : PyVal)
  : M (option Page) :=
  Tweet1k.safe_search query PRODUCT count cursor.

Definition DEFAULT_CKPT : gmap string PyVal :=
  <["query_hash" := VStr QUERY_HASH]>
    (<["count" := VInt 0]>
      (<["cursor" := VNone]>
        (<["last_success_time" := VNone]> ∅))).

(** The [try] block of [load_checkpoint]. *)
Definition load_checkpoint_try (c : FileContent) : Exn + gmap string PyVal :=
  match json_load c with
  | inl e => inl e
  | inr data =>
      match json_get data "query_hash" with
      | inl e => inl e
      | inr h =>
          if decide (h ≠ VStr QUERY_HASH) then inr DEFAULT_CKPT
          else match data with
               | JDict d => inr d
               | JValue _ => inl AttributeError
               end
      end
  end.

Definition load_checkpoint_of (f : option FileContent) : gmap string PyVal :=
  match f with
  | Some c =>
      match load_checkpoint_try c with
      | inr d => d
      | inl _ => DEFAULT_CKPT
      end
  | None => DEFAULT_CKPT
  end.

Definition load_checkpoint : M (gmap string PyVal) :=
  fun w => Done (load_checkpoint_of (checkpoint_file w)) w.

(** [save_checkpoint] stamps the dict it is given, which the caller keeps
    using; the stamped dict is returned to stand for that sharing. *)
Definition save_checkpoint (data : gmap string PyVal)
  : M (gmap string PyVal) :=
  let data' := <["query_hash" := VStr QUERY_HASH]> data in
  dump_checkpoint data' ;;;
  ret data'.

Record Loop : Type := mkLoop {
  collected : Z;
  cursor : PyVal;
  failures : Z;
  existing_ids : gset string;
  ckpt : gmap string PyVal
}.

(** The loop body up to the checkpoint: what is done with the result of
    the search. *)
Definition handle (st : Loop) (result : option Page) : M Loop :=
  match result with
  | None =>
      ret (mkLoop (collected st) VNone (failures st + 1)
                  (existing_ids st) (ckpt st))
  | Some result =>
      match tweets result with
      | [] =>
          ret (mkLoop (collected st) VNone (failures st + 1)
                      (existing_ids st) (ckpt st))
      | _ :: _ =>
          saved <- save_tweets_batch (tweets result) (existing_ids st) 0 ;;
          let '(added, ids) := saved in
          stamp <- now_isoformat ;;
          n <- call_next result ;;
          let cursor' := match n with
                         | Some c => cursor_val c
                         | None => VNone
                         end in
          ret (mkLoop (collected st + added) cursor' 0 ids
                      (<["last_success_time" := stamp]> (ckpt st)))
      end
  end.

(** The end of the loop body: checkpoint, then back off. *)
Definition checkpoint_and_wait (st : Loop) : M Loop :=
  let updated :=
    <["cursor" := cursor st]> (<["count" := VInt (collected st)]> (ckpt st)) in
  ckpt' <- save_checkpoint updated ;;
  delay <- (if failures st =? 0 then randint 30 90 else randint 120 300) ;;
  sleep (inject_Z delay) ;;;
  ret (mkLoop (collected st) (cursor st) (failures st) (existing_ids st) ckpt').

Definition body (st : Loop) : M Loop :=
  result <- safe_search QUERY BATCH_SIZE (cursor st) ;;
  st' <- handle st result ;;
  checkpoint_and_wait st'.

Fixpoint loop (rounds : nat) (st : Loop) : M Loop :=
  if (collected st <? MAX_TWEETS) && (failures st <? 20) then
    match rounds with
    | O => fun w => Pending w
    | S rounds' => st' <- body st ;; loop rounds' st'
    end
  else ret st.

(** The part of [run] that precedes the loop. *)
Definition init : M (PyVal * PyVal * gset string * gmap string PyVal) :=
  ckpt <- load_checkpoint ;;
  count <- getitem ckpt "count" ;;
  cursor <- getitem ckpt "cursor" ;;
  existing_ids <- read_existing_ids ;;
  fresh <- is_new_file ;;
  open_append ;;;
  (if fresh : bool then writerow HEADER else ret tt) ;;;
  ret (count, cursor, existing_ids, ckpt).

Definition run (rounds : nat) : M Loop :=
  started <- init ;;
  let '(count, cursor, existing_ids, ckpt) := started in
  collected <- as_int count ;;
  loop rounds (mkLoop collected cursor 0 existing_ids ckpt).

End WithQueryHash.
End Tweet1k_3.

(** [if reset_time:] on the value [getattr(e, 'rate_limit_reset', None)] *)
Definition reset_given (a : Attr) : option Q :=
  match a with
  | Present (Some v) => if Qeq_bool v 0 then None else Some v
  | _ => None
  end.

(** [ckpt.update({'count': ..., 'cursor': ..., 'last_success': ...})] *)
Definition update_ckpt (ckpt : gmap string PyVal) (collected : Z)
    (cursor last_success : PyVal) : gmap string PyVal :=
  <["last_success" := last_success]>
    (<["cursor" := cursor]> (<["count" := VInt collected]> ckpt)).

(** The cursor both [Dynamic_scrapping] scripts look for after a stored
    page: the page's own token, else the token of [result.next()], else
    nothing ([None] stands for Python's [None]). *)
Definition find_next_cursor (result : Page) : M (option string) :=
  if usable (next_cursor result) then ret (next_cursor result)
  else
    n <- call_next result ;;
    match n with
    | Some c => if usable c then ret c else ret None
    | None => ret None
    end.

(** ** [Dynamic_scrapping_X.py] *)

Module DynX.
Section WithArgs.

Variable QUERY : string.        (* args.query *)
Variable PRODUCT : PyVal.       (* args.product *)
Variable MAX_TWEETS : Z.        (* args.max_tweets *)

Definition BATCH_SIZE : Z := 20.
Definition MAX_FAILURES : Z := 10.
Definition MAX_RETRIES : nat := 3.
Definition RETRY_DELAYS : list Z := [5; 15; 30].

(** [await asyncio.sleep(RETRY_DELAYS[attempt])] *)
Definition sleep_retry_delay (attempt : nat) : M unit :=
  match RETRY_DELAYS !! attempt with
  | Some d => sleep (inject_Z d)
  | None => raise IndexError
  end.

(** The [for attempt in range(MAX_RETRIES)] loop, over the attempts that
    are left. *)
Fixpoint attempts (todo : list nat) (query : string) (count : Z)
    (cursor : PyVal) : M (option Page) :=
  match todo with
  | [] => ret None
  | attempt :: rest =>
      r <- search_tweet query PRODUCT count cursor ;;
      match r with
      | Result p => ret (Some p)
      | TooManyRequests a =>
          match reset_given a with
          | Some reset_time =>
              now <- time_time ;;
              let wait_time := (Qmax (reset_time - now) 0 + 5)%Q in
              sleep wait_time ;;;
              attempts rest query count cursor
          | None =>
              sleep_retry_delay attempt ;;;
              attempts rest query count cursor
          end
      | OtherException =>
          (if (attempt <? MAX_RETRIES - 1)%nat
           then sleep_retry_delay attempt
           else ret tt) ;;;
          attempts rest query count cursor
      end
  end.

Definition safe_search_with_retry (query : string) (count : Z)
    (cursor : PyVal) : M (option Page) :=
  attempts (seq 0 MAX_RETRIES) query count cursor.

Definition DEFAULT : gmap string PyVal :=
  <["count" := VInt 0]> (<["cursor" := VNone]> (<["last_success" := VNone]> ∅)).

Definition load_checkpoint : M Json :=
  fun w =>
    Done (match checkpoint_file w with
          | Some c =>
              match json_load c with
              | inr j => j
              | inl _ => JDict DEFAULT
              end
          | None => JDict DEFAULT
          end) w.

Definition save_checkpoint (data : gmap string PyVal) : M unit :=
  dump_checkpoint data.

Record Loop : Type := mkLoop {
  collected : Z;
  cursor : PyVal;
  last_success : PyVal;
  failures : Z;
  existing_ids : gset string;
  ckpt : gmap string PyVal
}.

(** The loop body up to the checkpoint: what is done with the result of
    the search. *)
Definition handle (st : Loop) (result : option Page) : M Loop :=
  match result with
  | None =>
      ret (mkLoop (collected st) VNone (last_success st) (failures st + 1)
                  (existing_ids st) (ckpt st))
  | Some result =>
      match tweets result with
      | [] =>
          ret (mkLoop (collected st) VNone (last_success st) (failures st + 1)
                      (existing_ids st) (ckpt st))
      | _ :: _ =>
          saved <- save_tweets_batch (tweets result) (existing_ids st) 0 ;;
          let '(added, ids) := saved in
          stamp <- now_isoformat ;;
          c <- find_next_cursor result ;;
          ret (mkLoop (collected st + added) (cursor_val c) stamp 0 ids
                      (ckpt st))
      end
  end.

(** The end of the loop body: checkpoint, then back off. *)
Definition checkpoint_and_wait (st : Loop) : M Loop :=
  let ckpt' := update_ckpt (ckpt st) (collected st) (cursor st)
                 (last_success st) in
  save_checkpoint ckpt' ;;;
  delay <- (if failures st =? 0 then randint 5 15
            else r <- randint 30 60 ;; ret (r * failures st)) ;;
  sleep (inject_Z delay) ;;;
  ret (mkLoop (collected st) (cursor st) (last_success st) (failures st)
              (existing_ids st) ckpt').

Definition body (st : Loop) : M Loop :=
  result <- safe_search_with_retry QUERY BATCH_SIZE (cursor st) ;;
  st' <- handle st result ;;
  checkpoint_and_wait st'.

Fixpoint loop (rounds : nat) (st : Loop) : M Loop :=
  if (collected st <? MAX_TWEETS) && (failures st <? MAX_FAILURES) then
    match rounds with
    | O => fun w => Pending w
    | S rounds' => st' <- body st ;; loop rounds' st'
    end
  else ret st.

(** [run], from the point where the client is there. *)
Definition run (rounds : nat) : M Loop :=
  loaded <- load_checkpoint ;;
  count <- json_getitem loaded "count" ;;
  cursor <- json_getitem loaded "cursor" ;;
  last_success <- json_get_default loaded "last_success" VNone ;;
  existing_ids <- read_existing_ids ;;
  fresh <- is_new_file ;;
  open_append ;;;
  (if fresh : bool then writerow HEADER else ret tt) ;;;
  collected <- as_int count ;;
  let ckpt := match loaded with JDict d => d | JValue _ => ∅ end in
  loop rounds (mkLoop collected cursor last_success 0 existing_ids ckpt).

End WithArgs.
End DynX.

(** ** [Dynamic_scrapping/init.py] *)

Module DynInit.

(** The three [break] statements of the main loop. *)
Inductive Exit : Type :=
| NoNextCursor
| CursorRepeated
| NoNewPages.

Section WithArgs.

Variable BASE_QUERY : string.   (* strip_since_until(args.query) *)
Variable DAY : string.          (* args.day *)
Variable DAY_UNTIL : string.    (* the day after, as YYYY-MM-DD *)
Variable PRODUCT : PyVal.       (* args.product *)
Variable MAX_TWEETS : Z.        (* args.max_tweets *)
Variable BATCH_SIZE : Z.        (* args.batch_size *)
Variable MAX_FAILURES : Z.      (* args.max_failures *)

Definition MAX_RETRIES : nat := 3.
Definition RETRY_DELAYS : list Z := [5; 15; 30].

Definition DAY_QUERY : string :=
  String.append BASE_QUERY
    (String.append " since:" (String.append DAY (String.append " until:" DAY_UNTIL))).

(** [await asyncio.sleep(RETRY_DELAYS[i])] *)
Definition sleep_retry_delay (i : nat) : M unit :=
  match RETRY_DELAYS !! i with
  | Some d => sleep (inject_Z d)
  | None => raise IndexError
  end.

Fixpoint attempts (todo : list nat) (query : string) (count : Z)
    (cursor : PyVal) : M (option Page) :=
  match todo with
  | [] => ret None
  | attempt :: rest =>
      r <- search_tweet query PRODUCT count cursor ;;
      match r with
      | Result p => ret (Some p)
      | TooManyRequests a =>
          match reset_given a with
          | Some reset_time =>
              now <- time_time ;;
              let wait_time := (Qmax (reset_time - now) 0 + 5)%Q in
              sleep wait_time ;;;
              attempts rest query count cursor
          | None =>
              sleep_retry_delay (Nat.min attempt (length RETRY_DELAYS - 1)) ;;;
              attempts rest query count cursor
          end
      | OtherException =>
          (if (attempt <? MAX_RETRIES - 1)%nat
           then sleep_retry_delay attempt
           else ret tt) ;;;
          attempts rest query count cursor
      end
  end.

Definition safe_search_with_retry (query : string) (count : Z)
    (cursor : PyVal) : M (option Page) :=
  attempts (seq 0 MAX_RETRIES) query count cursor.

Definition DEFAULT : gmap string PyVal :=
  <["count" := VInt 0]> (<["cursor" := VNone]> (<["last_success" := VNone]> ∅)).

Definition load_checkpoint : M Json :=
  fun w =>
    Done (match checkpoint_file w with
          | Some c =>
              match json_load c with
              | inr j => j
              | inl _ => JDict DEFAULT
              end
          | None => JDict DEFAULT
          end) w.

(** [save_checkpoint] stamps the dict it is given, which the caller keeps
    using; the stamped dict is returned to stand for that sharing. *)
Definition save_checkpoint (data : gmap string PyVal)
  : M (gmap string PyVal) :=
  let data' :=
    <["product" := PRODUCT]>
      (<["query" := VStr BASE_QUERY]> (<["day" := VStr DAY]> data)) in
  dump_checkpoint data' ;;;
  ret data'.

Record Loop : Type := mkLoop {
  collected : Z;
  cursor : PyVal;
  last_success : PyVal;
  failures : Z;
  no_new_pages : Z;
  seen_cursors : gset string;
  existing_ids : gset string;
  ckpt : gmap string PyVal
}.

(** The loop body up to the checkpoint.  [Some e] in the result: the body
    was left through a [break] at that point. *)
Definition handle (st : Loop) (result : option Page)
  : M (option Exit * Loop) :=
  match result with
  | None =>
      ret (None,
           mkLoop (collected st) (cursor st) (last_success st)
                  (failures st + 1) (no_new_pages st) (seen_cursors st)
                  (existing_ids st) (ckpt st))
  | Some result =>
      match tweets result with
      | [] =>
          ret (None,
               mkLoop (collected st) (cursor st) (last_success st)
                      (failures st + 1) (no_new_pages st) (seen_cursors st)
                      (existing_ids st) (ckpt st))
      | _ :: _ =>
          saved <- save_tweets_batch (tweets result) (existing_ids st) 0 ;;
          let '(added, ids) := saved in
          stamp <- now_isoformat ;;
          let no_new := if added =? 0 then no_new_pages st + 1 else 0 in
          new_cursor <- find_next_cursor result ;;
          match new_cursor with
          | None =>
              ret (Some NoNextCursor,
                   mkLoop (collected st + added) (cursor st) stamp
                          (failures st) no_new (seen_cursors st) ids (ckpt st))
          | Some c =>
              if decide (c ∈ seen_cursors st)
              then
                ret (Some CursorRepeated,
                     mkLoop (collected st + added) (VStr c) stamp
                            (failures st) no_new (seen_cursors st) ids
                            (ckpt st))
              else
                ret (None,
                     mkLoop (collected st + added) (VStr c) stamp
                            (failures st) no_new ({[c]} ∪ seen_cursors st) ids
                            (ckpt st))
          end
      end
  end.

(** The end of the loop body: checkpoint, the third [break], back off. *)
Definition checkpoint_and_wait (st : Loop) : M (option Exit * Loop) :=
  ckpt' <- save_checkpoint (update_ckpt (ckpt st) (collected st) (cursor st)
                              (last_success st)) ;;
  let st' := mkLoop (collected st) (cursor st) (last_success st) (failures st)
               (no_new_pages st) (seen_cursors st) (existing_ids st) ckpt' in
  if 3 <=? no_new_pages st then ret (Some NoNewPages, st')
  else
    delay <- (if failures st =? 0 then randint 5 15
              else r <- randint 30 60 ;; ret (r * failures st)) ;;
    sleep (inject_Z delay) ;;;
    ret (None, st').

Definition body (st : Loop) : M (option Exit * Loop) :=
  result <- safe_search_with_retry DAY_QUERY BATCH_SIZE (cursor st) ;;
  handled <- handle st result ;;
  match handled with
  | (Some e, st') => ret (Some e, st')
  | (None, st') => checkpoint_and_wait st'
  end.

(** The [while] loop.  [None] in the result: the loop condition failed;
    [Some e]: a [break]. *)
Fixpoint loop (rounds : nat) (st : Loop) : M (option Exit * Loop) :=
  if (collected st <? MAX_TWEETS) && (failures st <? MAX_FAILURES) then
    match rounds with
    | O => fun w => Pending w
    | S rounds' =>
        step <- body st ;;
        match step with
        | (Some e, st') => ret (Some e, st')
        | (None, st') => loop rounds' st'
        end
    end
  else ret (None, st).

(** [run], from the point where the client is there. *)
Definition run (rounds : nat) : M (option Exit * Loop) :=
  loaded <- load_checkpoint ;;
  count <- json_get_default loaded "count" (VInt 0) ;;
  cursor <- json_get_default loaded "cursor" VNone ;;
  last_success <- json_get_default loaded "last_success" VNone ;;
  existing_ids <- read_existing_ids ;;
  fresh <- is_new_file ;;
  open_append ;;;
  (if fresh : bool then writerow HEADER else ret tt) ;;;
  collected <- as_int count ;;
  let ckpt := match loaded with JDict d => d | JValue _ => ∅ end in
  loop rounds (mkLoop collected cursor last_success 0 0 ∅ existing_ids ckpt).

End WithArgs.
End DynInit.

(** ** [1k.tweet_2.py] *)

(** [s.replace(old, new)] for a pattern [old] that is not empty: every
    occurrence, left to right, without overlap.  [skip] counts the
    characters of a matched occurrence still to be dropped. *)
Fixpoint replace_from (old new : string) (skip : nat) (s : string) : string :=
  match s with
  | EmptyString => EmptyString
  | String c s' =>
      match skip with
      | S k => replace_from old new k s'
      | O =>
          if String.prefix old s
          then String.append new (replace_from old new (String.length old - 1) s')
          else String c (replace_from old new 0 s')
      end
  end.

Definition replace (s old new : string) : string := replace_from old new 0 s.

(** [l[i]] with Python's negative indices. *)
Definition py_nth {A} (l : list A) (i : Z) : option A :=
  if 0 <=? i then l !! Z.to_nat i
  else if - Z.of_nat (length l) <=? i then l !! Z.to_nat (Z.of_nat (length l) + i)
  else None.

Module Tweet1k_2.

Record Strategy : Type := mkStrategy { product : string; count : Z }.

Definition QUERY : string := "(ثمانية OR ثمانيه)".
Definition MAX_TWEETS : Z := 1000.
Definition BATCH_SIZE : Z := 20.

Definition SEARCH_STRATEGIES : list Strategy :=
  [ mkStrategy "Latest" BATCH_SIZE; mkStrategy "Top" BATCH_SIZE ].

(** The handler of [1k.tweet.py], repeated verbatim in this script. *)
Definition safe_search (query : string) (product : string) (count : Z)
    (cursor : PyVal) : M (option Page) :=
  Tweet1k.safe_search query (VStr product) count cursor.

Definition DEFAULT : gmap string PyVal :=
  <["count" := VInt 0]>
    (<["cursor" := VNone]>
      (<["strategy_index" := VInt 0]>
        (<["last_successful_strategy" := VInt 0]>
          (<["consecutive_failures" := VInt 0]>
            (<["last_success_time" := VNone]>
              (<["query_variations" := VInt 0]> ∅)))))).

Definition load_checkpoint : M Json :=
  fun w =>
    Done (match checkpoint_file w with
          | Some c =>
              match json_load c with
              | inr j => j
              | inl _ => JDict DEFAULT
              end
          | None => JDict DEFAULT
          end) w.

Definition save_checkpoint (data : gmap string PyVal) : M unit :=
  dump_checkpoint data.

(** What [run_all_operations] takes from the checkpoint before it opens
    the CSV file. *)
Record Resumed : Type := mkResumed {
  r_count : PyVal;
  r_cursor : PyVal;
  r_strategy_index : PyVal;
  r_last_successful_strategy : PyVal;
  r_consecutive_failures : PyVal;
  r_last_success_time : PyVal;
  r_query_variations : PyVal
}.

(** The first lines of [run_all_operations]: [checkpoint['count']], then
    [checkpoint.get(...)] with its defaults. *)
Definition read_checkpoint : M Resumed :=
  checkpoint <- load_checkpoint ;;
  collected_count <- json_getitem checkpoint "count" ;;
  cursor <- json_get_default checkpoint "cursor" VNone ;;
  strategy_index <- json_get_default checkpoint "strategy_index" (VInt 0) ;;
  last_successful_strategy <-
    json_get_default checkpoint "last_successful_strategy" (VInt 0) ;;
  consecutive_failures <-
    json_get_default checkpoint "consecutive_failures" (VInt 0) ;;
  last_success_time <- json_get_default checkpoint "last_success_time" VNone ;;
  query_variations <- json_get_default checkpoint "query_variations" (VInt 0) ;;
  ret (mkResumed collected_count cursor strategy_index last_successful_strategy
         consecutive_failures last_success_time query_variations).

Section WithCalendar.

(** [f"{d:%Y-%m-%d}"] for the date at a given time stamp. *)
Variable ymd : Q -> string.

Definition days (n : Z) : Q := inject_Z (n * 86400).

Definition variations (base_query : string) (current_date : Q) : list string :=
  [ base_query;
    replace base_query "(to:thmanyahCompany)" "";
    replace base_query "(ثمانية OR ثمانيه)" "ثمانية";
    replace base_query "(ثمانية OR ثمانيه)" "ثمانيه";
    replace base_query "lang:ar" "" ]
  ++
  [ String.append base_query (String.append " since:" (ymd (current_date - days 30)%Q));
    String.append base_query (String.append " since:" (ymd (current_date - days 60)%Q));
    String.append base_query (String.append " since:" (ymd (current_date - days 90)%Q)) ].

Definition generate_query_variations (base_query : string)
    (variation_index : Z) : M string :=
  fun w =>
    let vs := variations base_query (clock w) in
    Done (nth (Z.to_nat (variation_index mod Z.of_nat (length vs))) vs "") w.

Record Loop : Type := mkLoop {
  collected_count : Z;
  cursor : PyVal;
  strategy_index : Z;
  last_successful_strategy : PyVal;
  consecutive_failures : Z;
  last_success_time : PyVal;
  query_variations : Z;
  existing_ids : gset string
}.

Definition next_strategy (strategy_index : Z) : Z :=
  (strategy_index + 1) mod Z.of_nat (length SEARCH_STRATEGIES).

(** Both places that read "try a different strategy and query variation":
    the [else] of [if new_count > 0] and the [except] block. *)
Definition rotate (st : Loop) (ids : gset string) : Loop :=
  mkLoop (collected_count st) VNone
         (next_strategy (strategy_index st))
         (last_successful_strategy st)
         (consecutive_failures st + 1)
         (last_success_time st)
         ((query_variations st + 1) mod 8)
         ids.

(** The [try] block of the loop body, after the search. *)
Definition handle (st : Loop) (result : option Page) : M Loop :=
  match result with
  | None => raise Exception
  | Some result =>
      match tweets result with
      | [] => raise Exception
      | _ :: _ =>
          saved <- save_tweets_batch (tweets result) (existing_ids st) 0 ;;
          let '(new_count, ids) := saved in
          if 0 <? new_count then
            stamp <- now_isoformat ;;
            paging <-
              (if usable (next_cursor result)
               then ret (cursor_val (next_cursor result), strategy_index st)
               else
                 n <- call_next result ;;
                 match n with
                 | Some c =>
                     if usable c then ret (cursor_val c, strategy_index st)
                     else ret (VNone, next_strategy (strategy_index st))
                 | None => ret (VNone, next_strategy (strategy_index st))
                 end) ;;
            let '(cursor', strategy_index') := paging in
            ret (mkLoop (collected_count st + new_count) cursor'
                        strategy_index' (VInt (strategy_index st)) 0 stamp 0 ids)
          else ret (rotate st ids)
      end
  end.

(** The [try] block of the loop body. *)
Definition attempt (st : Loop) (strategy : Strategy) (current_query : string)
  : M Loop :=
  result <- safe_search current_query (product strategy) (count strategy)
              (cursor st) ;;
  handle st result.

Definition checkpoint_of (st : Loop) : gmap string PyVal :=
  <["count" := VInt (collected_count st)]>
    (<["cursor" := cursor st]>
      (<["strategy_index" := VInt (strategy_index st)]>
        (<["last_successful_strategy" := last_successful_strategy st]>
          (<["consecutive_failures" := VInt (consecutive_failures st)]>
            (<["last_success_time" := last_success_time st]>
              (<["query_variations" := VInt (query_variations st)]> ∅)))))).

Definition body (st : Loop) : M Loop :=
  current_query <- generate_query_variations QUERY (query_variations st) ;;
  strategy <- match py_nth SEARCH_STRATEGIES (strategy_index st) with
              | Some s => ret s
              | None => raise IndexError
              end ;;
  st' <- catch (attempt st strategy current_query)
               (ret (rotate st (existing_ids st))) ;;
  save_checkpoint (checkpoint_of st') ;;;
  delay <- (if 0 <? consecutive_failures st' then randint 120 300
            else randint 30 90) ;;
  sleep (inject_Z delay) ;;;
  ret st'.

Fixpoint loop (rounds : nat) (st : Loop) : M Loop :=
  if (collected_count st <? MAX_TWEETS) && (consecutive_failures st <? 20) then
    match rounds with
    | O => fun w => Pending w
    | S rounds' => st' <- body st ;; loop rounds' st'
    end
  else ret st.

End WithCalendar.
End Tweet1k_2.

(** ** [main2.py] *)

Module Main2.

Definition MINIMUM_TWEETS : Z := 20.
Definition QUERY : string := "(ثمانية OR ثمانيه) (to:thmanyahCompany) lang:ar".

Definition HEADER : Row :=
  ["Tweet_count"; "Username"; "Text"; "Created At"; "Retweets"; "Likes"].

(** How [run_all_operations] ends: it runs to its last line, or it dies
    with [NameError: name 'tweets' is not defined]. *)
Inductive Ending : Type :=
| Completed
| NameError.

(** [search_tweets(client, query, count)]; [client] tells whether [main()]
    returned a client.  Every exception of the search is caught. *)
Definition search_tweets (client : bool) (query : string) (count : Z)
  : M (list Tweet.t) :=
  if client then
    r <- search_tweet query (VStr "Latest") count VNone ;;
    match r with
    | Result p => ret (tweets p)
    | TooManyRequests _ => ret []
    | OtherException => ret []
    end
  else ret [].

(** [open('tweets_2.csv', 'w')]: the script's CSV file, emptied. *)
Definition open_write : M unit :=
  fun w =>
    Done tt (mkWorld (clock w) (replies w) (rng w) (draws w) (Some [])
               (checkpoint_file w) (journal w)).

Definition numbered_row (i : Z) (tweet : Tweet.t) : Row :=
  [ pretty i;
    String.append "@" (Tweet.screen_name tweet);
    Tweet.text tweet;
    Tweet.created_at tweet;
    pretty (Tweet.retweet_count tweet);
    pretty (Tweet.favorite_count tweet) ].

(** [for i, tweet in enumerate(tweets, i): writer.writerow([...])] *)
Fixpoint write_numbered (i : Z) (tweets : list Tweet.t) : M unit :=
  match tweets with
  | [] => ret tt
  | tweet :: rest =>
      writerow (numbered_row i tweet) ;;;
      write_numbered (i + 1) rest
  end.

(** [run_all_operations], from the return of [main()] on.  [tweets] is
    bound only under [if client:], and read after it. *)
Definition run_all_operations (client : bool) : M Ending :=
  if client then
    tweets <- search_tweets client QUERY MINIMUM_TWEETS ;;
    match tweets with
    | [] => ret Completed
    | _ :: _ =>
        open_write ;;;
        writerow HEADER ;;;
        write_numbered 1 tweets ;;;
        ret Completed
    end
  else ret NameError.

End Main2.

(** ** Vocabulary of the statements *)

(** The ids a CSV file holds: first field of every non-empty row after the
    first row, in file order. *)
Definition stored_ids (f : option (list Row)) : list string :=
  match f with
  | None => []
  | Some rows => omap head (tail rows)
  end.

(** The tweets of a batch that [save_tweets_batch] writes, in order. *)
Fixpoint fresh (tweets : list Tweet.t) (existing_ids : gset string)
  : list Tweet.t :=
  match tweets with
  | [] => []
  | tw :: rest =>
      if decide (Tweet.id tw ∈ existing_ids) then fresh rest existing_ids
      else tw :: fresh rest ({[Tweet.id tw]} ∪ existing_ids)
  end.

(** The world after a sequence of [writer.writerow] calls. *)
Definition write_rows (rs : list Row) (w : World) : World :=
  foldl (fun w r => world_of (writerow r w)) w rs.

(** Outcome predicate: [Q] on normal return, [R] on the world in which a
    call stopped otherwise. *)
Definition wp {A} (m : M A) (Q : A -> World -> Prop) (R : World -> Prop)
    (w : World) : Prop :=
  match m w with
  | Done a w' => Q a w'
  | Raised _ w' => R w'
  | Pending w' => R w'
  end.

(** A call that leaves the CSV file alone, however it ends. *)
Definition keeps_tweets_file {A} (m : M A) : Prop :=
  forall w, tweets_file (world_of (m w)) = tweets_file w.

(** The set of known ids and the CSV file agree: the file has its first
    row, the set holds exactly the ids stored after it, and no id is stored
    twice. *)
Definition agrees (h : Row) (ids : gset string) (f : option (list Row)) : Prop :=
  (exists rows, f = Some (h :: rows))
  /\ ids = list_to_set (stored_ids f)
  /\ NoDup (stored_ids f).

(** The first row of the CSV file, the one [init_existing_ids] skips. *)
Definition first_row (f : option (list Row)) : option Row :=
  match f with
  | Some (h :: _) => Some h
  | _ => None
  end.

(** The file still has the first row [h] and holds no id twice. *)
Definition kept (h : Row) (f : option (list Row)) : Prop :=
  first_row f = Some h /\ NoDup (stored_ids f).

(** *** Sample data *)

Definition sample_tweet (i : string) : Tweet.t :=
  Tweet.mk i "someone" "some text" "Thu Sep 04 10:00:00 +0000 2025" 1 2 3.

(** A world with nothing on disk, the clock at [t] and the given replies
    to come. *)
Definition blank_world (t : Q) (rs : list Reply) : World :=
  mkWorld t rs (fun n => Z.of_nat n) 0 None None [].

(** The process is started again: same files, new replies to come. *)
Definition restart (w : World) (rs : list Reply) : World :=
  mkWorld (clock w) rs (rng w) (draws w) (tweets_file w) (checkpoint_file w) [].

(** A world in which the CSV file already holds two tweets. *)
Definition resumed_world : World :=
  mkWorld 1000
    [ Result (mkPage [sample_tweet "2"; sample_tweet "3"; sample_tweet "3"]
                     (Some "c1") (NextPage [sample_tweet "4"] (Some "c2")));
      OtherException ]
    (fun n => Z.of_nat n) 0
    (Some [HEADER; tweet_row (sample_tweet "1"); []; tweet_row (sample_tweet "2")])
    None [].

(** [1k.tweet.py] is started on an empty directory; its only search fails
    and the process is stopped there. *)
Definition stopped_early : World :=
  world_of (Tweet1k.run_all_operations 1 (blank_world 1000 [OtherException])).

(** A checkpoint left in [checkpoint.json] by an earlier collection, with
    no CSV file next to it. *)
Definition orphan_checkpoint : World :=
  mkWorld 1000 [] (fun n => Z.of_nat n) 0 None
    (Some (Parsed (JDict
       (<["count" := VInt 5]> (<["cursor" := VNone]> (<["product" := VStr "Latest"]> ∅))))))
    [].

(** The world right after a search that was answered by a rate limit and
    the sleep of [d] seconds that follows it. *)
Definition after_rate_limit (w : World) (rs : list Reply) (q : string)
    (p : PyVal) (c : Z) (cur : PyVal) (d : Q) : World :=
  mkWorld (clock w + d)%Q rs (rng w) (draws w) (tweets_file w)
          (checkpoint_file w) (journal w ++ [EvSearch q p c cur; EvSleep d]).

(** A rate limit that lifts 500 seconds from now, then a stored page. *)
Definition rate_limited_world : World :=
  blank_world 1000
    [ TooManyRequests (Present (Some 1500%Q));
      Result (mkPage [sample_tweet "1"] (Some "c1") NextRaises) ].

(** What a round without a search result would leave of the loop state of
    [Dynamic_scrapping_X.py] if one more failure were its only trace. *)
Definition only_failure_counted (st st' : DynX.Loop) : Prop :=
  DynX.collected st' = DynX.collected st
  /\ DynX.existing_ids st' = DynX.existing_ids st
  /\ DynX.failures st' = DynX.failures st + 1
  /\ DynX.cursor st' = DynX.cursor st.

(** A loop of [Dynamic_scrapping_X.py] in the middle of a result list. *)
Definition paging_state : DynX.Loop :=
  DynX.mkLoop 40 (VStr "c7") VNone 0 {["1"]} DynX.DEFAULT.

(** The same for [1k.tweet_3.py]. *)
Definition paging_state3 : Tweet1k_3.Loop :=
  Tweet1k_3.mkLoop 40 (VStr "c7") 0 {["1"]} (Tweet1k_3.DEFAULT_CKPT "0123456789").

(** The service fails three times in a row. *)
Definition failing_world : World :=
  mkWorld 1000 [OtherException; OtherException; OtherException]
    (fun n => Z.of_nat n) 0 (Some [HEADER; tweet_row (sample_tweet "1")]) None [].

(** The cursor [find_next_cursor] comes back with. *)
Definition found_cursor (p : Page) : option string :=
  if usable (next_cursor p) then next_cursor p
  else match next p with
       | NextPage _ c => if usable c then c else None
       | NextRaises => None
       end.

(** The world right after a search that used up one reply. *)
Definition after_search (w : World) (rs : list Reply) (q : string)
    (p : PyVal) (c : Z) (cur : PyVal) : World :=
  mkWorld (clock w) rs (rng w) (draws w) (tweets_file w)
          (checkpoint_file w) (journal w ++ [EvSearch q p c cur]).

(** Two pages in a row that hand out the same continuation token. *)
Definition stuck_service : World :=
  mkWorld 1000
    [ Result (mkPage [sample_tweet "1"; sample_tweet "2"] (Some "c1") NextRaises);
      Result (mkPage [sample_tweet "3"] None (NextPage [sample_tweet "4"] (Some "c1")));
      Result (mkPage [sample_tweet "5"] (Some "c1") NextRaises) ]
    (fun n => Z.of_nat n) 0 (Some [HEADER]) None [].

Definition day_start : DynInit.Loop :=
  DynInit.mkLoop 0 VNone VNone 0 0 ∅ ∅ DynInit.DEFAULT.

(** The two ways a round of [1k.tweet_2.py] can leave the rotation state.
    [rotated]: the strategy and query variation move on and the cursor is
    dropped. *)
Definition rotated (variants : nat) (st st' : Tweet1k_2.Loop) : Prop :=
  Tweet1k_2.collected_count st' = Tweet1k_2.collected_count st
  /\ Tweet1k_2.strategy_index st'
     = (Tweet1k_2.strategy_index st + 1)
         mod Z.of_nat (length Tweet1k_2.SEARCH_STRATEGIES)
  /\ Tweet1k_2.query_variations st'
     = (Tweet1k_2.query_variations st + 1) mod Z.of_nat variants
  /\ Tweet1k_2.cursor st' = VNone
  /\ Tweet1k_2.consecutive_failures st' = Tweet1k_2.consecutive_failures st + 1
  /\ Tweet1k_2.last_successful_strategy st' = Tweet1k_2.last_successful_strategy st.

(** [stored p]: the page [p] brought new tweets; the variation index is
    reset and the strategy remembered; the strategy is kept when a next
    cursor was found and moves on, with the cursor dropped, when not. *)
Definition stored (p : Page) (st st' : Tweet1k_2.Loop) : Prop :=
  let written := fresh (tweets p) (Tweet1k_2.existing_ids st) in
  written <> []
  /\ Tweet1k_2.collected_count st'
     = Tweet1k_2.collected_count st + Z.of_nat (length written)
  /\ Tweet1k_2.query_variations st' = 0
  /\ Tweet1k_2.last_successful_strategy st' = VInt (Tweet1k_2.strategy_index st)
  /\ Tweet1k_2.consecutive_failures st' = 0
  /\ Tweet1k_2.cursor st' = cursor_val (found_cursor p)
  /\ Tweet1k_2.strategy_index st'
     = match found_cursor p with
       | Some _ => Tweet1k_2.strategy_index st
       | None => (Tweet1k_2.strategy_index st + 1)
                   mod Z.of_nat (length Tweet1k_2.SEARCH_STRATEGIES)
       end.

(** A fresh start of [1k.tweet_2.py], and a service whose only page has one
    tweet and no way on. *)
Definition first_round : Tweet1k_2.Loop :=
  Tweet1k_2.mkLoop 0 VNone 0 (VInt 0) 0 VNone 0 ∅.

Definition last_page_service : World :=
  mkWorld 1000 [Result (mkPage [sample_tweet "1"] None NextRaises)]
    (fun n => Z.of_nat n) 0 (Some [HEADER]) None [].

Definition sample_ymd (t : Q) : string := "2025-08-05".

(** A page without a cursor of its own whose [next()] returns a page with
    one more tweet and the cursor ["c2"]. *)
Definition page_without_cursor : Page :=
  mkPage [sample_tweet "2"; sample_tweet "3"] None
         (NextPage [sample_tweet "4"] (Some "c2")).

Definition tweet1k_start : Tweet1k.Loop :=
  Tweet1k.mkLoop 1 VNone (VStr "Latest") {["1"]}.

(** The dict [save_checkpoint] of [1k.tweet.py] writes for a loop state. *)
Definition tweet1k_checkpoint (st : Tweet1k.Loop) : gmap string PyVal :=
  <["count" := VInt (Tweet1k.collected_count st)]>
    (<["cursor" := Tweet1k.cursor st]> (<["product" := Tweet1k.product st]> ∅)).

(** Three rate limits in a row, each with a reset time, then a page. *)
Definition throttled_world : World :=
  mkWorld 1000
    [ TooManyRequests (Present (Some 1100%Q));
      TooManyRequests (Present (Some 1300%Q));
      TooManyRequests (Present (Some 1500%Q));
      Result (mkPage [sample_tweet "2"] (Some "c8") NextRaises) ]
    (fun n => Z.of_nat n) 0 (Some [HEADER; tweet_row (sample_tweet "1")]) None [].

(** *** Vocabulary of the further properties *)

(** Rate-limit answers carrying the given reset times. *)
Definition rate_limits (resets : list Q) : list Reply :=
  map (fun r => TooManyRequests (Present (Some r))) resets.

(** The page of the first reply that is a result, if any. *)
Fixpoint first_page (rs : list Reply) : option Page :=
  match rs with
  | [] => None
  | Result p :: _ => Some p
  | _ :: rest => first_page rest
  end.

(** What [safe_search] of [1k.tweet.py] makes of an answer that is not a
    rate limit. *)
Definition settled (r : Reply) : option Page :=
  match r with
  | Result p => Some p
  | _ => None
  end.

Definition is_rate_limit (r : Reply) : bool :=
  match r with
  | TooManyRequests _ => true
  | _ => false
  end.

(** The same world with another checkpoint file. *)
Definition with_checkpoint (w : World) (c : option FileContent) : World :=
  mkWorld (clock w) (replies w) (rng w) (draws w) (tweets_file w) c (journal w).

(** The number of rows of a CSV file, 0 when it is missing. *)
Definition row_count (f : option (list Row)) : Z :=
  Z.of_nat (length (default [] f)).

(** An answer that tells no time at which to come back. *)
Definition no_reset_time (r : Reply) : bool :=
  match r with
  | TooManyRequests a =>
      match reset_given a with
      | Some _ => false
      | None => true
      end
  | _ => true
  end.

(** An answer that brings no tweet: an error, or a page that is empty. *)
Definition fruitless (r : Reply) : bool :=
  match r with
  | Result p =>
      match tweets p with
      | [] => true
      | _ :: _ => false
      end
  | TooManyRequests _ => false
  | OtherException => true
  end.

(** ** Generic facts about the monad and the world *)

Lemma wp_bind {A B} (m : M A) (k : A -> M B) Q R w :
  wp m (fun a w' => wp (k a) Q R w') R w -> wp (bind m k) Q R w.
Proof.
  unfold wp, bind. destruct (m w); auto.
Qed.

Lemma wp_ret {A} (a : A) (Q : A -> World -> Prop) R w :
  Q a w -> wp (ret a) Q R w.
Proof. auto. Qed.

Lemma wp_mono {A} (m : M A) (Q Q' : A -> World -> Prop) (R R' : World -> Prop) w :
  wp m Q R w ->
  (forall a w', Q a w' -> Q' a w') ->
  (forall w', R w' -> R' w') ->
  wp m Q' R' w.
Proof.
  unfold wp. destruct (m w); auto.
Qed.

(** From a frame property to a [wp]. *)
Lemma wp_keeps {A} (m : M A) (Q : A -> World -> Prop) (R : World -> Prop) w :
  keeps_tweets_file m ->
  (forall a w', tweets_file w' = tweets_file w -> Q a w') ->
  (forall w', tweets_file w' = tweets_file w -> R w') ->
  wp m Q R w.
Proof.
  intros Hk HQ HR. specialize (Hk w). unfold wp.
  destruct (m w); simpl in Hk; auto.
Qed.

Lemma keeps_bind {A B} (m : M A) (k : A -> M B) :
  keeps_tweets_file m -> (forall a, keeps_tweets_file (k a)) ->
  keeps_tweets_file (bind m k).
Proof.
  intros Hm Hk w. unfold bind. specialize (Hm w).
  destruct (m w) as [a w'| |]; simpl in *; auto.
  rewrite Hk. exact Hm.
Qed.

Lemma keeps_ret {A} (a : A) : keeps_tweets_file (ret a).
Proof. intros w. reflexivity. Qed.

Lemma keeps_raise {A} (e : Exn) : keeps_tweets_file (@raise A e).
Proof. intros w. reflexivity. Qed.

Lemma keeps_sleep d : keeps_tweets_file (sleep d).
Proof. intros w. reflexivity. Qed.

Lemma keeps_randint a b : keeps_tweets_file (randint a b).
Proof. intros w. reflexivity. Qed.

Lemma keeps_time_time : keeps_tweets_file time_time.
Proof. intros w. reflexivity. Qed.

Lemma keeps_now_isoformat : keeps_tweets_file now_isoformat.
Proof. intros w. reflexivity. Qed.

Lemma keeps_call_next p : keeps_tweets_file (call_next p).
Proof. intros w. reflexivity. Qed.

Lemma keeps_dump_checkpoint d : keeps_tweets_file (dump_checkpoint d).
Proof. intros w. reflexivity. Qed.

Lemma keeps_search_tweet q p c cur : keeps_tweets_file (search_tweet q p c cur).
Proof. intros w. unfold search_tweet. destruct (replies w); reflexivity. Qed.

Create HintDb frame discriminated.
#[local] Hint Resolve keeps_ret keeps_raise keeps_sleep keeps_randint
  keeps_time_time keeps_now_isoformat keeps_call_next keeps_dump_checkpoint
  keeps_search_tweet : frame.

(** Frame goals follow the shape of the code: split a [bind], take a
    [match] or an [if] apart, close a primitive with its lemma. *)
Ltac frame_step :=
  match goal with
  | |- keeps_tweets_file (bind _ _) => apply keeps_bind; [|intros ?]
  | |- keeps_tweets_file (match ?x with _ => _ end) => destruct x
  | |- keeps_tweets_file _ => assumption
  | |- keeps_tweets_file _ => solve [auto with frame]
  end.

Ltac frame := repeat frame_step.

Lemma keeps_find_next_cursor p : keeps_tweets_file (find_next_cursor p).
Proof. unfold find_next_cursor. frame. Qed.

Lemma keeps_safe_search_rec depth q p c cur :
  keeps_tweets_file (Tweet1k.safe_search_rec depth q p c cur).
Proof.
  induction depth as [|depth IH]; cbn [Tweet1k.safe_search_rec].
  - intros w. reflexivity.
  - frame.
Qed.

Lemma keeps_safe_search q p c cur :
  keeps_tweets_file (Tweet1k.safe_search q p c cur).
Proof.
  intros w. unfold Tweet1k.safe_search. apply keeps_safe_search_rec.
Qed.

(** ** The CSV file and the set of known ids *)

Lemma foldl_first_fields (rows : list Row) (acc : gset string) :
  foldl (fun ids row =>
           match row with
           | [] => ids
           | x :: _ => {[x]} ∪ ids
           end) acc rows
  = list_to_set (omap head rows) ∪ acc.
Proof.
  revert acc. induction rows as [|row rows IH]; intros acc; simpl.
  - set_solver.
  - rewrite IH. destruct row as [|x row]; simpl; set_solver.
Qed.

Lemma init_existing_ids_stored (f : option (list Row)) :
  init_existing_ids f = list_to_set (stored_ids f).
Proof.
  destruct f as [rows|]; simpl; [|reflexivity].
  rewrite foldl_first_fields. set_solver.
Qed.

Lemma init_existing_ids_new_file (f : option (list Row)) :
  new_file f = true -> init_existing_ids f = ∅.
Proof.
  destruct f as [[|r rows]|]; simpl; intros H; try reflexivity. discriminate.
Qed.

Lemma write_rows_tweets_file rs w :
  tweets_file (write_rows rs w)
  = match rs with
    | [] => tweets_file w
    | _ :: _ => Some (default [] (tweets_file w) ++ rs)
    end.
Proof.
  revert w. induction rs as [|r rs IH]; intros w; [reflexivity|].
  change (write_rows (r :: rs) w) with (write_rows rs (world_of (writerow r w))).
  rewrite IH. destruct rs as [|r' rs]; simpl; [reflexivity|].
  by rewrite <- app_assoc.
Qed.

Lemma write_rows_journal rs w :
  journal (write_rows rs w) = journal w ++ map EvWriteRow rs.
Proof.
  revert w. induction rs as [|r rs IH]; intros w; simpl.
  - by rewrite app_nil_r.
  - change (write_rows (r :: rs) w) with (write_rows rs (world_of (writerow r w))).
    rewrite IH. simpl. by rewrite <- app_assoc.
Qed.

Lemma write_rows_rest rs w :
  clock (write_rows rs w) = clock w
  /\ replies (write_rows rs w) = replies w
  /\ rng (write_rows rs w) = rng w
  /\ draws (write_rows rs w) = draws w
  /\ checkpoint_file (write_rows rs w) = checkpoint_file w.
Proof.
  revert w. induction rs as [|r rs IH]; intros w; [done|].
  change (write_rows (r :: rs) w) with (write_rows rs (world_of (writerow r w))).
  destruct (IH (world_of (writerow r w))) as (-> & -> & -> & -> & ->). done.
Qed.

(** [save_tweets_batch] always returns; it writes the rows of [fresh], in
    order, counts them and adds their ids to the set. *)
Lemma save_tweets_batch_spec tweets ids n w :
  save_tweets_batch tweets ids n w
  = Done (n + Z.of_nat (length (fresh tweets ids)),
          list_to_set (map Tweet.id (fresh tweets ids)) ∪ ids)
         (write_rows (map tweet_row (fresh tweets ids)) w).
Proof.
  revert ids n w. induction tweets as [|tw rest IH]; intros ids n w; simpl.
  - unfold ret. f_equal. f_equal; [lia | set_solver].
  - destruct (decide (Tweet.id tw ∈ ids)) as [Hin|Hin].
    + apply IH.
    + unfold bind at 1. simpl. rewrite IH. simpl. f_equal.
      f_equal; [lia | set_solver].
Qed.

Lemma fresh_not_known tweets ids x :
  x ∈ map Tweet.id (fresh tweets ids) -> x ∉ ids.
Proof.
  revert ids. induction tweets as [|tw rest IH]; intros ids; simpl.
  - by intros ?%elem_of_nil.
  - destruct (decide (Tweet.id tw ∈ ids)) as [Hin|Hin]; simpl.
    + apply IH.
    + intros [->|Hx]%elem_of_cons; [done|].
      apply IH in Hx. set_solver.
Qed.

Lemma fresh_NoDup tweets ids : NoDup (map Tweet.id (fresh tweets ids)).
Proof.
  revert ids. induction tweets as [|tw rest IH]; intros ids; simpl.
  - constructor.
  - destruct (decide (Tweet.id tw ∈ ids)) as [Hin|Hin]; simpl; [apply IH|].
    constructor; [|apply IH].
    intros Hx%fresh_not_known. set_solver.
Qed.

Lemma fresh_from_batch tweets ids tw :
  tw ∈ fresh tweets ids -> tw ∈ tweets.
Proof.
  revert ids. induction tweets as [|tw' rest IH]; intros ids; simpl; [done|].
  destruct (decide (Tweet.id tw' ∈ ids)).
  - intros H%IH. by right.
  - intros [->|H%IH]%elem_of_cons; [left|by right].
Qed.

Lemma stored_ids_tweet_rows (tws : list Tweet.t) :
  omap head (map tweet_row tws) = map Tweet.id tws.
Proof.
  induction tws as [|tw tws IH]; [reflexivity|].
  change (Tweet.id tw :: omap head (map tweet_row tws)
          = Tweet.id tw :: map Tweet.id tws).
  by rewrite IH.
Qed.

(** Appending tweet rows to a file that already has a first row adds
    exactly their ids. *)
Lemma stored_ids_write_rows (tws : list Tweet.t) w h rows :
  tweets_file w = Some (h :: rows) ->
  exists rows',
    tweets_file (write_rows (map tweet_row tws) w) = Some (h :: rows')
    /\ stored_ids (tweets_file (write_rows (map tweet_row tws) w))
       = stored_ids (tweets_file w) ++ map Tweet.id tws.
Proof.
  intros Hf. rewrite write_rows_tweets_file, Hf.
  destruct tws as [|tw tws].
  - exists rows. simpl. by rewrite app_nil_r.
  - exists (rows ++ map tweet_row (tw :: tws)). split; [reflexivity|].
    change (omap head (rows ++ map tweet_row (tw :: tws))
            = omap head rows ++ map Tweet.id (tw :: tws)).
    by rewrite omap_app, stored_ids_tweet_rows.
Qed.

(** The agreement between file and set that every loop maintains. *)
Lemma dedup_step (tws : list Tweet.t) (ids : gset string) w h rows :
  tweets_file w = Some (h :: rows) ->
  ids = list_to_set (stored_ids (tweets_file w)) ->
  NoDup (stored_ids (tweets_file w)) ->
  let w' := write_rows (map tweet_row (fresh tws ids)) w in
  (exists rows', tweets_file w' = Some (h :: rows'))
  /\ list_to_set (map Tweet.id (fresh tws ids)) ∪ ids
     = list_to_set (stored_ids (tweets_file w'))
  /\ NoDup (stored_ids (tweets_file w')).
Proof.
  intros Hf Hids Hnd w'.
  destruct (stored_ids_write_rows (fresh tws ids) w h rows Hf) as (rows' & Hf' & Hs).
  fold w' in Hf', Hs. split; [eauto|]. rewrite Hs. split.
  - rewrite list_to_set_app_L. set_solver.
  - apply NoDup_app. split; [exact Hnd|]. split; [|apply fresh_NoDup].
    intros x Hx Hx'. apply fresh_not_known in Hx'. set_solver.
Qed.

Lemma agrees_kept h ids f : agrees h ids f -> kept h f.
Proof. intros ((rows & ->) & _ & Hnd). by split. Qed.

Lemma wp_save_tweets_batch h tws ids n w (R : World -> Prop) :
  agrees h ids (tweets_file w) ->
  wp (save_tweets_batch tws ids n)
     (fun r w' => agrees h r.2 (tweets_file w')) R w.
Proof.
  intros ((rows & Hf) & Hids & Hnd).
  unfold wp. rewrite save_tweets_batch_spec. simpl.
  destruct (dedup_step tws ids w h rows Hf Hids Hnd) as ((rows' & Hf') & H1 & H2).
  split; [eauto|]. split; assumption.
Qed.

(** ** [1k.tweet_3.py]: the file and the set stay in step *)

Lemma tweet3_handle_agrees h st result w :
  agrees h (Tweet1k_3.existing_ids st) (tweets_file w) ->
  wp (Tweet1k_3.handle st result)
     (fun st' w' => agrees h (Tweet1k_3.existing_ids st') (tweets_file w'))
     (fun w' => kept h (tweets_file w')) w.
Proof.
  intros Hag. unfold Tweet1k_3.handle.
  destruct result as [pg|]; [|exact Hag].
  destruct (tweets pg) as [|tw tws] eqn:Htw; [exact Hag|].
  apply wp_bind.
  eapply wp_mono;
    [apply (wp_save_tweets_batch h _ _ _ _ (fun w' => kept h (tweets_file w'))), Hag
    | | intros w' Hw'; exact Hw'].
  intros [added ids] w1 Hag1. simpl in Hag1.
  apply wp_bind. apply wp_keeps; [apply keeps_now_isoformat| |].
  - intros stamp w2 Hw2. apply wp_bind.
    apply wp_keeps; [apply keeps_call_next| |].
    + intros n w3 Hw3. apply wp_ret. simpl. by rewrite Hw3, Hw2.
    + intros w3 Hw3. rewrite Hw3, Hw2. by eapply agrees_kept.
  - intros w2 Hw2. rewrite Hw2. by eapply agrees_kept.
Qed.

Lemma tweet3_checkpoint_and_wait_journal H st w :
  exists delay w',
    let ckpt' := <["query_hash" := VStr H]>
                   (<["cursor" := Tweet1k_3.cursor st]>
                      (<["count" := VInt (Tweet1k_3.collected st)]>
                         (Tweet1k_3.ckpt st))) in
    Tweet1k_3.checkpoint_and_wait H st w
    = Done (Tweet1k_3.mkLoop (Tweet1k_3.collected st) (Tweet1k_3.cursor st)
              (Tweet1k_3.failures st) (Tweet1k_3.existing_ids st) ckpt') w'
    /\ journal w' = journal w ++ [EvSaveCheckpoint ckpt'; EvSleep (inject_Z delay)]
    /\ tweets_file w' = tweets_file w
    /\ checkpoint_file w' = Some (Parsed (JDict ckpt'))
    /\ (if Tweet1k_3.failures st =? 0 then 30 <= delay <= 90
        else 120 <= delay <= 300).
Proof.
  unfold Tweet1k_3.checkpoint_and_wait, Tweet1k_3.save_checkpoint,
    dump_checkpoint, randint, sleep, bind, ret, emit. simpl.
  destruct (Tweet1k_3.failures st =? 0) eqn:E; simpl;
    eexists _, _; (split; [reflexivity|]); simpl;
    rewrite <- app_assoc; (split; [reflexivity|]); (split; [reflexivity|]);
    (split; [reflexivity|]).
  - pose proof (Z.mod_pos_bound (rng w (draws w)) (90 - 30 + 1)). lia.
  - pose proof (Z.mod_pos_bound (rng w (draws w)) (300 - 120 + 1)). lia.
Qed.

Lemma tweet3_body_agrees H h st w :
  agrees h (Tweet1k_3.existing_ids st) (tweets_file w) ->
  wp (Tweet1k_3.body H st)
     (fun st' w' => agrees h (Tweet1k_3.existing_ids st') (tweets_file w'))
     (fun w' => kept h (tweets_file w')) w.
Proof.
  intros Hag. unfold Tweet1k_3.body. apply wp_bind.
  apply wp_keeps; [apply keeps_safe_search| |].
  - intros result w1 Hw1. apply wp_bind.
    eapply wp_mono; [apply (tweet3_handle_agrees h); by rewrite Hw1| |auto].
    intros st' w2 Hag2. unfold wp.
    destruct (tweet3_checkpoint_and_wait_journal H st' w2)
      as (delay & w3 & -> & _ & Hf & _).
    simpl. by rewrite Hf.
  - intros w1 Hw1. rewrite Hw1. by eapply agrees_kept.
Qed.

Lemma tweet3_loop_agrees H h rounds st w :
  agrees h (Tweet1k_3.existing_ids st) (tweets_file w) ->
  wp (Tweet1k_3.loop H rounds st)
     (fun st' w' => agrees h (Tweet1k_3.existing_ids st') (tweets_file w'))
     (fun w' => kept h (tweets_file w')) w.
Proof.
  revert st w. induction rounds as [|rounds IH]; intros st w Hag; simpl.
  - destruct (_ && _); [by eapply agrees_kept | exact Hag].
  - destruct (_ && _); [|exact Hag].
    apply wp_bind.
    eapply wp_mono; [apply (tweet3_body_agrees H h), Hag| |auto].
    intros st' w' Hag'. by apply IH.
Qed.

Lemma tweet3_init_spec H w :
  match Tweet1k_3.init H w with
  | Done (count, cursor, ids, ckpt) w' =>
      ids = init_existing_ids (tweets_file w)
      /\ ckpt = Tweet1k_3.load_checkpoint_of H (checkpoint_file w)
      /\ ckpt !! "count" = Some count
      /\ ckpt !! "cursor" = Some cursor
      /\ tweets_file w'
         = Some (if new_file (tweets_file w) then [HEADER]
                 else default [] (tweets_file w))
      /\ journal w'
         = journal w ++ (if new_file (tweets_file w) then [EvWriteRow HEADER] else [])
  | Raised _ w' => w' = w
  | Pending _ => False
  end.
Proof.
  unfold Tweet1k_3.init, Tweet1k_3.load_checkpoint, getitem, read_existing_ids,
    is_new_file, open_append, bind at 1 2. simpl.
  destruct (_ !! "count") as [count|] eqn:Hc; [|reflexivity].
  unfold bind at 1. simpl.
  destruct (_ !! "cursor") as [cursor|] eqn:Hcur; [|reflexivity].
  unfold bind. simpl.
  destruct (tweets_file w) as [[|r rows]|]; simpl; rewrite ?app_nil_r; tauto.
Qed.

Lemma tweet3_init_agrees H w :
  NoDup (stored_ids (tweets_file w)) ->
  wp (Tweet1k_3.init H)
     (fun r w' => agrees (default HEADER (first_row (tweets_file w))) r.1.2
                    (tweets_file w'))
     (fun w' => tweets_file w' = tweets_file w) w.
Proof.
  intros Hnd. unfold wp. pose proof (tweet3_init_spec H w) as Hi.
  destruct (Tweet1k_3.init H w) as [[[[count cursor] ids] ckpt] w'|e w'|w'];
    [|by subst|done].
  destruct Hi as (-> & _ & _ & _ & Hf & _). simpl. unfold agrees. rewrite Hf.
  destruct (tweets_file w) as [[|r rows]|] eqn:Hw; simpl.
  - split; [eauto|]. split; [set_solver|constructor].
  - split; [eauto|]. split; [|exact Hnd].
    rewrite foldl_first_fields. set_solver.
  - split; [eauto|]. split; [set_solver|constructor].
Qed.

Lemma tweet3_run_agrees H rounds w :
  NoDup (stored_ids (tweets_file w)) ->
  let h := default HEADER (first_row (tweets_file w)) in
  wp (Tweet1k_3.run H rounds)
     (fun st' w' => agrees h (Tweet1k_3.existing_ids st') (tweets_file w'))
     (fun w' => tweets_file w' = tweets_file w \/ kept h (tweets_file w')) w.
Proof.
  intros Hnd h. unfold Tweet1k_3.run. apply wp_bind.
  eapply wp_mono; [apply tweet3_init_agrees, Hnd| |auto].
  intros [[[count cursor] ids] ckpt] w' Hag. simpl in Hag. fold h in Hag.
  apply wp_bind.
  destruct count; try (right; by eapply agrees_kept).
  apply wp_ret.
  eapply wp_mono; [apply (tweet3_loop_agrees H h), Hag|auto|auto].
Qed.



(** ** Loading a checkpoint *)

Lemma tweet3_load_matching H d :
  d !! "query_hash" = Some (VStr H) ->
  Tweet1k_3.load_checkpoint_of H (Some (Parsed (JDict d))) = d.
Proof.
  intros Hd. unfold Tweet1k_3.load_checkpoint_of, Tweet1k_3.load_checkpoint_try.
  simpl. unfold dict_get. rewrite Hd. simpl.
  destruct (decide (VStr H ≠ VStr H)); [congruence|reflexivity].
Qed.

Lemma tweet3_load_other H f :
  (forall d, f = Some (Parsed (JDict d)) -> d !! "query_hash" ≠ Some (VStr H)) ->
  Tweet1k_3.load_checkpoint_of H f = Tweet1k_3.DEFAULT_CKPT H.
Proof.
  intros Hf. destruct f as [[|[d|v]]|]; try reflexivity.
  unfold Tweet1k_3.load_checkpoint_of, Tweet1k_3.load_checkpoint_try. simpl.
  destruct (decide (dict_get d "query_hash" VNone ≠ VStr H)) as [|Heq]; [reflexivity|].
  exfalso. apply (Hf d eq_refl). unfold dict_get in Heq.
  destruct (d !! "query_hash") as [v|]; simpl in Heq.
  - destruct (decide (v = VStr H)) as [->|]; [reflexivity|contradiction].
  - destruct (decide (VNone = VStr H)); [discriminate|contradiction].
Qed.


(** ** The header row *)

(** C8.  [1k.tweet_3.py] writes the header exactly when the CSV file was
    missing or empty.  [1k.tweet.py] tests the saved count instead: started
    again after a run that stored nothing it writes a second header, and
    started on a checkpoint with a positive count and no CSV file it writes
    no header at all. *)
Theorem C8_header_gate :
  (forall (QUERY_HASH : string) (w : World),
     match Tweet1k_3.init QUERY_HASH w with
     | Done _ w' =>
         tweets_file w'
         = Some (if new_file (tweets_file w) then [HEADER]
                 else default [] (tweets_file w))
         /\ journal w'
            = journal w ++ (if new_file (tweets_file w) then [EvWriteRow HEADER] else [])
     | Raised _ w' => w' = w
     | Pending _ => False
     end)
  /\ tweets_file stopped_early = Some [HEADER]
  /\ tweets_file (world_of (Tweet1k.run_all_operations 0 (restart stopped_early [])))
     = Some [HEADER; HEADER]
  /\ new_file (tweets_file orphan_checkpoint) = true
  /\ tweets_file (world_of (Tweet1k.run_all_operations 0 orphan_checkpoint))
     = Some [].
Proof.
  split.
  - intros H w. pose proof (tweet3_init_spec H w) as Hi.
    destruct (Tweet1k_3.init H w) as [[[[count cursor] ids] ckpt] w'|e w'|w']; tauto.
  - repeat split; vm_compute; reflexivity.
Qed.

(** ** Waiting out a rate limit *)

Lemma tweet1k_safe_search_rate_limited resetAt rs w q p c cur :
  replies w = TooManyRequests (Present (Some resetAt)) :: rs ->
  Tweet1k.safe_search q p c cur w
  = Tweet1k.safe_search q p c cur
      (after_rate_limit w rs q p c cur (Qmax (resetAt - clock w) 0 + 10)%Q).
Proof.
  intros Hr. unfold Tweet1k.safe_search at 1. rewrite Hr.
  cbn [length Tweet1k.safe_search_rec].
  unfold bind, search_tweet, time_time, ret, sleep, emit. rewrite Hr.
  cbn [clock replies rng draws tweets_file checkpoint_file journal].
  unfold Tweet1k.safe_search, after_rate_limit. cbn [replies].
  by rewrite <- app_assoc.
Qed.

Lemma dynx_attempts_rate_limited PRODUCT resetAt a rs w q c cur attempt rest :
  replies w = TooManyRequests a :: rs ->
  reset_given a = Some resetAt ->
  DynX.attempts PRODUCT (attempt :: rest) q c cur w
  = DynX.attempts PRODUCT rest q c cur
      (after_rate_limit w rs q PRODUCT c cur (Qmax (resetAt - clock w) 0 + 5)%Q).
Proof.
  intros Hr Ha. cbn [DynX.attempts].
  unfold bind at 1. unfold search_tweet. rewrite Hr, Ha.
  unfold bind, time_time, ret, sleep, emit.
  cbn [clock replies rng draws tweets_file checkpoint_file journal].
  unfold after_rate_limit. by rewrite <- app_assoc.
Qed.

Lemma wait_bounds (now resetAt margin : Q) :
  (resetAt == now + 500)%Q ->
  (Qmax (resetAt - now) 0 + margin == 500 + margin)%Q.
Proof.
  intros H.
  destruct (Q.max_spec (resetAt - now) 0) as [[H1 H2]|[H1 H2]]; rewrite H2; lra.
Qed.



(** ** [Dynamic_scrapping_X.py]: retries and failures *)

(** Three rate-limit answers in a row use up the three attempts: the search
    gives up with [None], whatever the reset times. *)
Lemma dynx_three_rate_limits PRODUCT q c cur a1 a2 a3 rs w :
  replies w = TooManyRequests a1 :: TooManyRequests a2 :: TooManyRequests a3 :: rs ->
  exists w',
    DynX.safe_search_with_retry PRODUCT q c cur w = Done None w'
    /\ replies w' = rs
    /\ tweets_file w' = tweets_file w
    /\ checkpoint_file w' = checkpoint_file w.
Proof.
  intros Hr. unfold DynX.safe_search_with_retry, DynX.MAX_RETRIES.
  cbn [seq DynX.attempts]. unfold bind at 1. unfold search_tweet at 1. rewrite Hr.
  destruct (reset_given a1); cbn;
    destruct (reset_given a2); cbn;
      destruct (reset_given a3); cbn; eauto.
Qed.

Lemma dynx_checkpoint_and_wait st w :
  0 <= DynX.failures st ->
  exists delay w',
    let ckpt' := update_ckpt (DynX.ckpt st) (DynX.collected st)
                   (DynX.cursor st) (DynX.last_success st) in
    DynX.checkpoint_and_wait st w
    = Done (DynX.mkLoop (DynX.collected st) (DynX.cursor st)
              (DynX.last_success st) (DynX.failures st)
              (DynX.existing_ids st) ckpt') w'
    /\ journal w' = journal w ++ [EvSaveCheckpoint ckpt'; EvSleep (inject_Z delay)]
    /\ tweets_file w' = tweets_file w
    /\ checkpoint_file w' = Some (Parsed (JDict ckpt'))
    /\ (if DynX.failures st =? 0 then 5 <= delay <= 15
        else 30 * DynX.failures st <= delay <= 60 * DynX.failures st).
Proof.
  intros Hf. unfold DynX.checkpoint_and_wait, DynX.save_checkpoint,
    dump_checkpoint, randint, sleep, bind, ret, emit. simpl.
  destruct (DynX.failures st =? 0) eqn:E; simpl;
    eexists _, _; (split; [reflexivity|]); simpl;
    rewrite <- app_assoc; (split; [reflexivity|]); (split; [reflexivity|]);
    (split; [reflexivity|]).
  - pose proof (Z.mod_pos_bound (rng w (draws w)) (15 - 5 + 1)). lia.
  - pose proof (Z.mod_pos_bound (rng w (draws w)) (60 - 30 + 1)). nia.
Qed.

(** C4.  In [Dynamic_scrapping_X.py] a rate limit takes one of the three
    attempts of [safe_search_with_retry]: when the service answers three
    searches in a row with [TooManyRequests] (with or without a reset
    time), the search returns [None] and the round adds one to [failures]
    and drops the cursor. *)
Theorem C4_rate_limits_reach_the_failure_count
    (QUERY : string) (PRODUCT : PyVal) (a1 a2 a3 : Attr) (rs : list Reply)
    (w0 : World) (st : DynX.Loop) :
  let w := restart w0 (TooManyRequests a1 :: TooManyRequests a2
                         :: TooManyRequests a3 :: rs) in
  (exists w1,
     DynX.safe_search_with_retry PRODUCT QUERY DynX.BATCH_SIZE (DynX.cursor st) w
     = Done None w1 /\ replies w1 = rs)
  /\ exists st' w',
       DynX.body QUERY PRODUCT st w = Done st' w'
       /\ DynX.failures st' = DynX.failures st + 1
       /\ DynX.cursor st' = VNone
       /\ DynX.collected st' = DynX.collected st.
Proof.
  intros w.
  destruct (dynx_three_rate_limits PRODUCT QUERY DynX.BATCH_SIZE (DynX.cursor st)
              a1 a2 a3 rs w eq_refl) as (w1 & Hs & Hrs & _).
  split; [eauto|].
  unfold DynX.body, bind. rewrite Hs. cbn [DynX.handle ret].
  unfold DynX.checkpoint_and_wait, DynX.save_checkpoint, dump_checkpoint,
    randint, sleep, bind, ret.
  cbn [DynX.failures DynX.collected DynX.cursor].
  destruct (DynX.failures st + 1 =? 0); eexists _, _; split; reflexivity || done.
Qed.

Lemma keeps_dynx_attempts PRODUCT todo q c cur :
  keeps_tweets_file (DynX.attempts PRODUCT todo q c cur).
Proof.
  induction todo as [|attempt rest IH]; cbn [DynX.attempts];
    unfold DynX.sleep_retry_delay; frame.
Qed.




(** ** [Dynamic_scrapping/init.py]: pages, cursors and the ways out *)

Lemma find_next_cursor_spec p w :
  find_next_cursor p w
  = Done (found_cursor p) (if usable (next_cursor p) then w else emit EvNext w).
Proof.
  unfold find_next_cursor, found_cursor.
  destruct (usable (next_cursor p)); [reflexivity|].
  unfold bind, call_next.
  destruct (next p) as [|items c]; [reflexivity|].
  destruct (usable c); reflexivity.
Qed.

Lemma dyninit_search_result PRODUCT q c cur p rs w :
  replies w = Result p :: rs ->
  DynInit.safe_search_with_retry PRODUCT q c cur w
  = Done (Some p) (after_search w rs q PRODUCT c cur).
Proof.
  intros Hr. unfold DynInit.safe_search_with_retry, DynInit.MAX_RETRIES.
  cbn [seq DynInit.attempts]. unfold bind, search_tweet. rewrite Hr. reflexivity.
Qed.

(** What [handle] does with a page that has tweets. *)
Lemma dyninit_handle_page st p w :
  tweets p <> [] ->
  let written := fresh (tweets p) (DynInit.existing_ids st) in
  let added := Z.of_nat (length written) in
  exists st' w',
    DynInit.handle st (Some p) w
    = Done (match found_cursor p with
            | None => Some DynInit.NoNextCursor
            | Some c => if decide (c ∈ DynInit.seen_cursors st)
                        then Some DynInit.CursorRepeated else None
            end, st') w'
    /\ DynInit.collected st' = DynInit.collected st + added
    /\ DynInit.failures st' = DynInit.failures st
    /\ DynInit.no_new_pages st'
       = (if added =? 0 then DynInit.no_new_pages st + 1 else 0)
    /\ DynInit.cursor st'
       = match found_cursor p with
         | Some c => VStr c
         | None => DynInit.cursor st
         end
    /\ DynInit.seen_cursors st'
       = match found_cursor p with
         | Some c => {[c]} ∪ DynInit.seen_cursors st
         | None => DynInit.seen_cursors st
         end
    /\ DynInit.existing_ids st'
       = list_to_set (map Tweet.id written) ∪ DynInit.existing_ids st
    /\ journal w'
       = journal w ++ map EvWriteRow (map tweet_row written)
           ++ (if usable (next_cursor p) then [] else [EvNext])
    /\ tweets_file w' = tweets_file (write_rows (map tweet_row written) w)
    /\ checkpoint_file w' = checkpoint_file w
    /\ replies w' = replies w.
Proof.
  intros Hne written added. unfold DynInit.handle.
  destruct (tweets p) as [|tw tws] eqn:Htw; [done|].
  unfold bind at 1. rewrite save_tweets_batch_spec. fold written. fold added.
  unfold bind at 1, now_isoformat at 1. unfold bind at 1.
  rewrite find_next_cursor_spec.
  set (w1 := write_rows (map tweet_row written) w).
  set (w2 := if usable (next_cursor p) then w1 else emit EvNext w1).
  assert (Hw2 : journal w2 = journal w ++ map EvWriteRow (map tweet_row written)
                  ++ (if usable (next_cursor p) then [] else [EvNext])
                /\ tweets_file w2 = tweets_file w1
                /\ checkpoint_file w2 = checkpoint_file w
                /\ replies w2 = replies w).
  { destruct (write_rows_rest (map tweet_row written) w) as (_ & Hr & _ & _ & Hc).
    unfold w2, w1.
    destruct (usable (next_cursor p)); simpl;
      rewrite write_rows_journal, ?app_nil_r, <- ?app_assoc; auto. }
  destruct Hw2 as (Hj & Ht & Hc & Hr).
  destruct (found_cursor p) as [c|].
  - destruct (decide (c ∈ DynInit.seen_cursors st)) as [Hin|Hin];
      eexists _, w2; (split; [reflexivity|]); simpl;
      repeat (split; [done || set_solver|]); done.
  - eexists _, w2. split; [reflexivity|]. simpl. done.
Qed.

Lemma dyninit_checkpoint_and_wait BASE_QUERY DAY PRODUCT st w :
  exists ckpt' w',
    DynInit.checkpoint_and_wait BASE_QUERY DAY PRODUCT st w
    = Done (if 3 <=? DynInit.no_new_pages st then Some DynInit.NoNewPages else None,
            DynInit.mkLoop (DynInit.collected st) (DynInit.cursor st)
              (DynInit.last_success st) (DynInit.failures st)
              (DynInit.no_new_pages st) (DynInit.seen_cursors st)
              (DynInit.existing_ids st) ckpt') w'
    /\ replies w' = replies w
    /\ tweets_file w' = tweets_file w
    /\ checkpoint_file w' = Some (Parsed (JDict ckpt')).
Proof.
  unfold DynInit.checkpoint_and_wait, DynInit.save_checkpoint, dump_checkpoint,
    randint, sleep, bind, ret.
  destruct (3 <=? DynInit.no_new_pages st); [eexists _, _; split; done|].
  destruct (DynInit.failures st =? 0); eexists _, _; split; done.
Qed.

(** A round of [Dynamic_scrapping/init.py] on a page that has tweets. *)
Lemma dyninit_body_page BASE_QUERY DAY DAY_UNTIL PRODUCT BATCH_SIZE st p rs w :
  replies w = Result p :: rs ->
  tweets p <> [] ->
  let added := Z.of_nat (length (fresh (tweets p) (DynInit.existing_ids st))) in
  let no_new := if added =? 0 then DynInit.no_new_pages st + 1 else 0 in
  exists st' w',
    DynInit.body BASE_QUERY DAY DAY_UNTIL PRODUCT BATCH_SIZE st w
    = Done (match found_cursor p with
            | None => Some DynInit.NoNextCursor
            | Some c =>
                if decide (c ∈ DynInit.seen_cursors st)
                then Some DynInit.CursorRepeated
                else if 3 <=? no_new then Some DynInit.NoNewPages else None
            end, st') w'
    /\ replies w' = rs
    /\ DynInit.failures st' = DynInit.failures st
    /\ DynInit.collected st' = DynInit.collected st + added
    /\ DynInit.seen_cursors st'
       = match found_cursor p with
         | Some c => {[c]} ∪ DynInit.seen_cursors st
         | None => DynInit.seen_cursors st
         end.
Proof.
  intros Hr Hne added no_new. unfold DynInit.body. unfold bind at 1.
  rewrite (dyninit_search_result _ _ _ _ p rs w Hr).
  set (w0 := after_search _ _ _ _ _ _).
  destruct (dyninit_handle_page st p w0 Hne)
    as (st1 & w1 & Hh & Hcol & Hfail & Hnn & _ & Hseen & _ & _ & _ & _ & Hrep).
  unfold bind at 1. rewrite Hh.
  destruct (found_cursor p) as [c|]; [|by eexists _, _].
  destruct (decide (c ∈ DynInit.seen_cursors st)); [by eexists _, _|].
  destruct (dyninit_checkpoint_and_wait BASE_QUERY DAY PRODUCT st1 w1)
    as (ckpt' & w2 & Hc & Hrep2 & _).
  rewrite Hc, Hnn. fold added. fold no_new.
  eexists _, w2. split; [reflexivity|]. simpl.
  split; [by rewrite Hrep2, Hrep|]. done.
Qed.

(** In [1k.tweet.py] every way through the loop body saves the checkpoint
    after the rows are written and before the sleep, and what is saved is
    the loop state the round ends with. *)
Lemma tweet1k_handle_persists st result w :
  exists st' w' rows adv tail,
    Tweet1k.handle st result w = Done st' w'
    /\ journal w'
       = journal w ++ map EvWriteRow rows ++ adv
           ++ [EvSaveCheckpoint (tweet1k_checkpoint st')] ++ tail
    /\ (adv = [] \/ adv = [EvNext])
    /\ (tail = [] \/ tail = [EvSleep 10])
    /\ checkpoint_file w' = Some (Parsed (JDict (tweet1k_checkpoint st'))).
Proof.
  unfold Tweet1k.handle.
  destruct result as [p|].
  2:{ eexists _, _, [], [], []. split; [reflexivity|]. simpl. auto. }
  destruct (tweets p) as [|tw tws] eqn:Htw.
  { eexists _, _, [], [], []. split; [reflexivity|]. simpl. auto. }
  rewrite <- Htw. unfold bind at 1. rewrite save_tweets_batch_spec.
  set (written := fresh (tweets p) (Tweet1k.existing_ids st)).
  unfold call_next, Tweet1k.save_checkpoint, dump_checkpoint, sleep, bind, ret.
  destruct (usable (next_cursor p)).
  { eexists _, _, (map tweet_row written), [], [EvSleep 10%Q].
    split; [reflexivity|]. simpl.
    rewrite write_rows_journal, <- !app_assoc. auto. }
  destruct (next p) as [|items c].
  { eexists _, _, (map tweet_row written), [EvNext], [EvSleep 10%Q].
    split; [reflexivity|]. simpl.
    rewrite write_rows_journal, <- !app_assoc. auto. }
  destruct (usable c);
    eexists _, _, (map tweet_row written), [EvNext], [EvSleep 10%Q];
    (split; [reflexivity|]); simpl;
    rewrite write_rows_journal, <- !app_assoc; auto.
Qed.

(** C2.  [1k.tweet.py] saves the checkpoint on every way through the loop
    body, after the rows and before the sleep.  [Dynamic_scrapping/init.py]
    does not: the [break] taken when a stored page yields no next cursor
    leaves the loop body before the checkpoint is saved.  The rows of the
    page are written and the count has advanced, but no checkpoint is
    written in that round and the checkpoint file is what it was before. *)
Theorem C2_break_skips_checkpoint
    (BASE_QUERY DAY DAY_UNTIL : string) (PRODUCT : PyVal) (BATCH_SIZE : Z)
    (st : DynInit.Loop) (w0 : World) (tw : Tweet.t) (tws : list Tweet.t) :
  let w := restart w0 [Result (mkPage (tw :: tws) None NextRaises)] in
  let written := fresh (tw :: tws) (DynInit.existing_ids st) in
  (forall (st1 : Tweet1k.Loop) (result : option Page) (w1 : World),
     exists st' w' rows adv tail,
       Tweet1k.handle st1 result w1 = Done st' w'
       /\ journal w'
          = journal w1 ++ map EvWriteRow rows ++ adv
              ++ [EvSaveCheckpoint (tweet1k_checkpoint st')] ++ tail
       /\ (adv = [] \/ adv = [EvNext])
       /\ (tail = [] \/ tail = [EvSleep 10])
       /\ checkpoint_file w' = Some (Parsed (JDict (tweet1k_checkpoint st'))))
  /\ exists st' w',
       DynInit.body BASE_QUERY DAY DAY_UNTIL PRODUCT BATCH_SIZE st w
       = Done (Some DynInit.NoNextCursor, st') w'
       /\ DynInit.collected st' = DynInit.collected st + Z.of_nat (length written)
       /\ journal w'
          = EvSearch (DynInit.DAY_QUERY BASE_QUERY DAY DAY_UNTIL) PRODUCT BATCH_SIZE
              (DynInit.cursor st)
            :: map EvWriteRow (map tweet_row written) ++ [EvNext]
       /\ tweets_file w'
          = match written with
            | [] => tweets_file w0
            | _ :: _ => Some (default [] (tweets_file w0) ++ map tweet_row written)
            end
       /\ checkpoint_file w' = checkpoint_file w0.
Proof.
  intros w written. split; [apply tweet1k_handle_persists|].
  unfold DynInit.body. unfold bind at 1.
  rewrite (dyninit_search_result _ _ _ _ (mkPage (tw :: tws) None NextRaises) [] w eq_refl).
  set (w1 := after_search _ _ _ _ _ _).
  destruct (dyninit_handle_page st (mkPage (tw :: tws) None NextRaises) w1)
    as (st1 & w2 & Hh & Hcol & _ & _ & _ & _ & _ & Hj & Ht & Hc & _); [done|].
  unfold bind at 1. rewrite Hh. cbn [found_cursor usable next_cursor next].
  exists st1, w2. split; [reflexivity|]. split; [exact Hcol|].
  split; [exact Hj|]. split; [|exact Hc].
  rewrite Ht, write_rows_tweets_file. simpl tweets. fold written.
  by destruct written.
Qed.



(** ** [1k.tweet_2.py]: rotating strategies and query variations *)

Lemma wp_catch {A} (m handler : M A) (Q : A -> World -> Prop) w :
  wp m Q (fun w' => wp handler Q (fun _ => True) w') w ->
  wp (catch m handler) Q (fun _ => True) w.
Proof.
  unfold wp, catch. destruct (m w) as [a w'|e w'|w']; auto.
Qed.

Lemma wp_done {A} (m : M A) (Q : A -> World -> Prop) R w a w' :
  wp m Q R w -> m w = Done a w' -> Q a w'.
Proof. unfold wp. intros H E. by rewrite E in H. Qed.

Lemma variations_length ymd q t : length (Tweet1k_2.variations ymd q t) = 8%nat.
Proof. reflexivity. Qed.

Lemma rotated_rotate st ids : rotated 8 st (Tweet1k_2.rotate st ids).
Proof. by repeat split. Qed.

(** A page that [safe_search] returns is one of the replies of the
    service. *)
Lemma safe_search_rec_result depth q p c cur w r w' :
  Tweet1k.safe_search_rec depth q p c cur w = Done r w' ->
  forall pg, r = Some pg -> Result pg ∈ replies w.
Proof.
  revert w. induction depth as [|depth IH]; intros w; [discriminate|].
  cbn [Tweet1k.safe_search_rec]. unfold bind at 1, search_tweet.
  destruct (replies w) as [|reply rs] eqn:Hr; [discriminate|].
  destruct reply as [pg0|a|].
  - intros [= <- <-] pg [= <-]. left.
  - unfold bind at 1, time_time.
    destruct a as [|[v|]]; [| |discriminate];
      (unfold bind, ret, sleep; intros Hrec pg Hpg; right;
       exact (IH _ Hrec pg Hpg)).
  - unfold bind, sleep, ret. intros [= <- <-] pg [=].
Qed.

Lemma wp_safe_search q p c cur w (Q : option Page -> World -> Prop) :
  (forall r w', (forall pg, r = Some pg -> Result pg ∈ replies w) -> Q r w') ->
  wp (Tweet1k.safe_search q p c cur) Q (fun _ => True) w.
Proof.
  intros HQ. unfold wp.
  destruct (Tweet1k.safe_search q p c cur w) as [r w'| |] eqn:E; [|done|done].
  apply HQ. by eapply safe_search_rec_result.
Qed.

Lemma tweet2_handle_outcome st result w :
  wp (Tweet1k_2.handle st result)
     (fun st' _ => rotated 8 st st' \/ exists p, result = Some p /\ stored p st st')
     (fun _ => True) w.
Proof.
  unfold Tweet1k_2.handle. destruct result as [p|]; [|done].
  destruct (tweets p) as [|tw tws] eqn:Htw; [done|].
  rewrite <- Htw. apply wp_bind. unfold wp at 1. rewrite save_tweets_batch_spec.
  set (written := fresh (tweets p) (Tweet1k_2.existing_ids st)).
  rewrite !Z.add_0_l. destruct (0 <? Z.of_nat (length written)) eqn:Hpos.
  2:{ left. apply rotated_rotate. }
  assert (Hw : written <> []) by (intros E; rewrite E in Hpos; discriminate).
  unfold now_isoformat, bind at 1, wp. unfold call_next, bind, ret.
  destruct (usable (next_cursor p)) eqn:Hu.
  { right. exists p. split; [done|]. unfold stored, found_cursor. fold written.
    rewrite Hu. by destruct (next_cursor p). }
  destruct (next p) as [|items c] eqn:Hn.
  { right. exists p. split; [done|]. unfold stored, found_cursor. fold written.
    by rewrite Hu, Hn. }
  destruct (usable c) eqn:Hc.
  { right. exists p. split; [done|]. unfold stored, found_cursor. fold written.
    rewrite Hu, Hn, Hc. by destruct c. }
  right. exists p. split; [done|]. unfold stored, found_cursor. fold written.
  by rewrite Hu, Hn, Hc.
Qed.

(** C6, as amended.  A round of [1k.tweet_2.py] that returns has done one of
    two things.  Either it stored nothing new (no result, an empty page, an
    exception, or a page of known tweets): then the strategy index and the
    query variation index each moved on by one, modulo the number of
    strategies and of variations, the cursor is dropped and the failure
    count is up by one.  Or a page sent by the service brought new tweets:
    then the variation index is 0, the strategy is remembered and the
    failure count is 0; the strategy index is unchanged when a next cursor
    was found (on the page or through its [next()]), and otherwise it moves
    on by one and the cursor is dropped. *)
Theorem C6_rotation (ymd : Q -> string) (st st' : Tweet1k_2.Loop) (w w' : World) :
  Tweet1k_2.body ymd st w = Done st' w' ->
  rotated (length (Tweet1k_2.variations ymd Tweet1k_2.QUERY (clock w))) st st'
  \/ exists p, Result p ∈ replies w /\ stored p st st'.
Proof.
  intros Hb.
  assert (Hwp : wp (Tweet1k_2.body ymd st)
                  (fun st' _ =>
                     rotated 8 st st'
                     \/ exists p, Result p ∈ replies w /\ stored p st st')
                  (fun _ => True) w).
  { unfold Tweet1k_2.body. apply wp_bind. unfold wp at 1.
    unfold Tweet1k_2.generate_query_variations.
    apply wp_bind.
    destruct (py_nth Tweet1k_2.SEARCH_STRATEGIES (Tweet1k_2.strategy_index st))
      as [strategy|]; [|exact I].
    apply wp_ret. apply wp_bind. apply wp_catch.
    eapply wp_mono with
      (Q := fun st1 _ =>
              rotated 8 st st1
              \/ exists p, Result p ∈ replies w /\ stored p st st1)
      (R := fun _ => True).
    - unfold Tweet1k_2.attempt. apply wp_bind. apply wp_safe_search.
      intros result w1 Hfrom.
      eapply wp_mono; [apply tweet2_handle_outcome| |done].
      intros st1 _ [Hrot|(p & Hres & Hst)]; [by left|].
      right. exists p. split; [by apply Hfrom|exact Hst].
    - intros st1 w1 Hpost.
      unfold Tweet1k_2.save_checkpoint, dump_checkpoint, randint, sleep, bind, ret, wp.
      by destruct (0 <? _).
    - intros w1 _. apply wp_ret.
      unfold Tweet1k_2.save_checkpoint, dump_checkpoint, randint, sleep, bind, ret, wp.
      destruct (0 <? _); left; apply rotated_rotate. }
  rewrite variations_length. exact (wp_done _ _ _ _ _ _ Hwp Hb).
Qed.

Lemma C6_rotation_witness :
  exists st' w',
    Tweet1k_2.body sample_ymd first_round last_page_service = Done st' w'
    /\ (rotated (length (Tweet1k_2.variations sample_ymd Tweet1k_2.QUERY
                           (clock last_page_service))) first_round st'
        \/ exists p, Result p ∈ replies last_page_service
                     /\ stored p first_round st').
Proof.
  assert (E : exists st' w',
             Tweet1k_2.body sample_ymd first_round last_page_service = Done st' w').
  { vm_compute. eexists _, _. reflexivity. }
  destruct E as (st' & w' & E). exists st', w'. split; [exact E|].
  exact (C6_rotation sample_ymd first_round st' last_page_service w' E).
Defined.

(** The statement of C6 before amendment does not hold: a round that
    stores a new tweet from a page without a way on moves to the next
    strategy. *)
Lemma C6_strategy_moves_after_last_page :
  ~ (forall st' w',
       Tweet1k_2.body sample_ymd first_round last_page_service = Done st' w' ->
       Tweet1k_2.collected_count first_round < Tweet1k_2.collected_count st' ->
       Tweet1k_2.strategy_index st' = Tweet1k_2.strategy_index first_round).
Proof.
  intros H.
  assert (E : exists st' w',
             Tweet1k_2.body sample_ymd first_round last_page_service = Done st' w'
             /\ Tweet1k_2.collected_count st' = 1
             /\ Tweet1k_2.strategy_index st' = 1).
  { vm_compute. eexists _, _. repeat split. }
  destruct E as (st' & w' & E & Hc & Hs).
  specialize (H st' w' E). rewrite Hc, Hs in H. simpl in H.
  assert (1 = 0) by (apply H; lia). discriminate.
Qed.

(** ** The page reached through [next()] *)

(** C10.  When a stored page has no usable cursor of its own, the round
    calls the page's [next()] and reads nothing but [next_cursor] from what
    comes back.  The result of the round is the same whatever tweets that
    second page carries; the rows written, the ids added and the count are
    those of the new tweets of the first page alone; and the cursor kept
    for the next search is the second page's own [next_cursor], which
    starts after that page.  Checked on [1k.tweet.py],
    [Dynamic_scrapping_X.py] and (for a page with new tweets)
    [1k.tweet_2.py]. *)
Theorem C10_advanced_page_is_skipped
    (st1 : Tweet1k.Loop) (stX : DynX.Loop) (st2 : Tweet1k_2.Loop)
    (p : Page) (items : list Tweet.t) (c : option string) (w : World) :
  tweets p <> [] ->
  usable (next_cursor p) = false ->
  next p = NextPage items c ->
  let bare := mkPage (tweets p) (next_cursor p) (NextPage [] c) in
  let cursor' := if usable c then cursor_val c else VNone in
  (Tweet1k.handle st1 (Some p) w = Tweet1k.handle st1 (Some bare) w
   /\ exists st' w' ckpt,
        let written := fresh (tweets p) (Tweet1k.existing_ids st1) in
        Tweet1k.handle st1 (Some p) w = Done st' w'
        /\ Tweet1k.collected_count st'
           = Tweet1k.collected_count st1 + Z.of_nat (length written)
        /\ Tweet1k.existing_ids st'
           = list_to_set (map Tweet.id written) ∪ Tweet1k.existing_ids st1
        /\ Tweet1k.cursor st' = cursor'
        /\ tweets_file w' = tweets_file (write_rows (map tweet_row written) w)
        /\ journal w'
           = journal w ++ map EvWriteRow (map tweet_row written)
               ++ [EvNext; EvSaveCheckpoint ckpt; EvSleep 10])
  /\ (DynX.handle stX (Some p) w = DynX.handle stX (Some bare) w
      /\ exists st' w',
           let written := fresh (tweets p) (DynX.existing_ids stX) in
           DynX.handle stX (Some p) w = Done st' w'
           /\ DynX.collected st' = DynX.collected stX + Z.of_nat (length written)
           /\ DynX.existing_ids st'
              = list_to_set (map Tweet.id written) ∪ DynX.existing_ids stX
           /\ DynX.cursor st' = cursor'
           /\ tweets_file w' = tweets_file (write_rows (map tweet_row written) w)
           /\ journal w'
              = journal w ++ map EvWriteRow (map tweet_row written) ++ [EvNext])
  /\ (Tweet1k_2.handle st2 (Some p) w = Tweet1k_2.handle st2 (Some bare) w
      /\ (fresh (tweets p) (Tweet1k_2.existing_ids st2) <> [] ->
          exists st' w',
            let written := fresh (tweets p) (Tweet1k_2.existing_ids st2) in
            Tweet1k_2.handle st2 (Some p) w = Done st' w'
            /\ Tweet1k_2.collected_count st'
               = Tweet1k_2.collected_count st2 + Z.of_nat (length written)
            /\ Tweet1k_2.existing_ids st'
               = list_to_set (map Tweet.id written) ∪ Tweet1k_2.existing_ids st2
            /\ Tweet1k_2.cursor st' = cursor'
            /\ tweets_file w' = tweets_file (write_rows (map tweet_row written) w)
            /\ journal w'
               = journal w ++ map EvWriteRow (map tweet_row written) ++ [EvNext])).
Proof.
  intros Hne Hu Hn bare cursor'.
  destruct (tweets p) as [|tw tws] eqn:Htw; [done|]. clear Hne.
  split; [|split].
  - split.
    { unfold Tweet1k.handle, call_next, bare. cbn [tweets next_cursor next].
      by rewrite Htw, Hn. }
    unfold Tweet1k.handle. rewrite Htw, Hu. rewrite <- Htw.
    unfold bind at 1. rewrite save_tweets_batch_spec. rewrite Z.add_0_l.
    set (written := fresh (tweets p) (Tweet1k.existing_ids st1)).
    unfold call_next, Tweet1k.save_checkpoint, dump_checkpoint, sleep, bind, ret.
    rewrite Hn. unfold cursor'.
    destruct (usable c); eexists _, _, _; (split; [reflexivity|]); simpl;
      rewrite write_rows_journal, <- !app_assoc; repeat split; reflexivity.
  - split.
    { unfold DynX.handle, find_next_cursor, call_next, bare.
      cbn [tweets next_cursor next]. by rewrite Htw, Hn. }
    unfold DynX.handle. rewrite Htw. rewrite <- Htw.
    unfold bind at 1. rewrite save_tweets_batch_spec. rewrite Z.add_0_l.
    set (written := fresh (tweets p) (DynX.existing_ids stX)).
    unfold now_isoformat, bind at 1. unfold bind at 1.
    rewrite find_next_cursor_spec, Hu. unfold found_cursor. rewrite Hu, Hn.
    unfold cursor'.
    destruct (usable c); eexists _, _; (split; [reflexivity|]); simpl;
      rewrite write_rows_journal, <- ?app_assoc; done.
  - split.
    { unfold Tweet1k_2.handle, call_next, bare. cbn [tweets next_cursor next].
      by rewrite Htw, Hn. }
    intros Hfresh. unfold Tweet1k_2.handle. rewrite Htw. rewrite <- Htw in *.
    unfold bind at 1. rewrite save_tweets_batch_spec. rewrite Z.add_0_l.
    assert (Hpos : (0 <? Z.of_nat (length (fresh (tweets p)
                                             (Tweet1k_2.existing_ids st2)))) = true).
    { by destruct (fresh (tweets p) (Tweet1k_2.existing_ids st2)). }
    set (written := fresh (tweets p) (Tweet1k_2.existing_ids st2)) in *.
    rewrite Hpos, Hu.
    unfold now_isoformat, call_next, bind, ret. rewrite Hn. unfold cursor'.
    destruct (usable c); eexists _, _; (split; [reflexivity|]); simpl;
      rewrite write_rows_journal, <- ?app_assoc; done.
Qed.

Lemma C10_advanced_page_is_skipped_witness :
  tweets page_without_cursor <> []
  /\ usable (next_cursor page_without_cursor) = false
  /\ next page_without_cursor = NextPage [sample_tweet "4"] (Some "c2")
  /\ exists st' w',
       Tweet1k.handle tweet1k_start (Some page_without_cursor) failing_world
       = Done st' w'
       /\ Tweet1k.cursor st' = VStr "c2"
       /\ Tweet1k.existing_ids st'
          = list_to_set (map Tweet.id [sample_tweet "2"; sample_tweet "3"]) ∪ {["1"]}.
Proof.
  assert (H1 : tweets page_without_cursor <> []) by discriminate.
  assert (H2 : usable (next_cursor page_without_cursor) = false) by reflexivity.
  assert (H3 : next page_without_cursor = NextPage [sample_tweet "4"] (Some "c2"))
    by reflexivity.
  split; [exact H1|]. split; [exact H2|]. split; [exact H3|].
  destruct (C10_advanced_page_is_skipped tweet1k_start paging_state first_round
              page_without_cursor [sample_tweet "4"] (Some "c2") failing_world
              H1 H2 H3)
    as [(_ & st' & w' & ckpt & Hh & _ & Hids & Hcur & _) _].
  exists st', w'. split; [exact Hh|]. split; [exact Hcur|]. exact Hids.
Defined.

(** ** Sample runs *)

Example replace_every_occurrence :
  replace "lang:ar a lang:ar b" "lang:ar" "" = " a  b"
  /\ replace "aaaa" "aa" "b" = "bb"
  /\ replace "(x OR y) (to:z) lang:ar" "(to:z)" "" = "(x OR y)  lang:ar".
Proof. repeat split; reflexivity. Qed.

Example second_query_variation :
  nth 1 (Tweet1k_2.variations sample_ymd Tweet1k.QUERY 0) ""
  = "(ثمانية OR ثمانيه)  lang:ar"
  /\ nth 5 (Tweet1k_2.variations sample_ymd Tweet1k_2.QUERY 0) ""
     = "(ثمانية OR ثمانيه) since:2025-08-05".
Proof. split; vm_compute; reflexivity. Qed.

(** [1k.tweet_3.py] resumed on a file with two tweets: tweet 2 is known,
    tweet 3 comes twice in the page and is stored once. *)
Example resumed_run_file :
  tweets_file (world_of (Tweet1k_3.run "0123456789" 2 resumed_world))
  = Some [ HEADER; tweet_row (sample_tweet "1"); [];
           tweet_row (sample_tweet "2"); tweet_row (sample_tweet "3") ].
Proof. vm_compute. reflexivity. Qed.

(** [Dynamic_scrapping/init.py] on the service that repeats its cursor:
    the second page ends the run. *)
Example stuck_service_run :
  exists st w,
    DynInit.loop "q" "2025-09-03" "2025-09-04" (VStr "Latest") 100000 20 3
      5 day_start stuck_service
    = Done (Some DynInit.CursorRepeated, st) w
    /\ DynInit.collected st = 3
    /\ length (replies w) = 1%nat.
Proof. vm_compute. eexists _, _. repeat split. Qed.

(** [Dynamic_scrapping_X.py] under three rate limits: 105, 200 and 200
    seconds of waiting, then a failure is counted and the slow delay
    follows although a page was ready. *)
Example throttled_round :
  exists st w ckpt,
    DynX.body "q" (VStr "Latest") paging_state throttled_world = Done st w
    /\ DynX.failures st = 1
    /\ DynX.cursor st = VNone
    /\ length (replies w) = 1%nat
    /\ journal w
       = [ EvSearch "q" (VStr "Latest") 20 (VStr "c7"); EvSleep 105;
           EvSearch "q" (VStr "Latest") 20 (VStr "c7"); EvSleep 200;
           EvSearch "q" (VStr "Latest") 20 (VStr "c7"); EvSleep 200;
           EvSaveCheckpoint ckpt; EvSleep 30 ].
Proof. vm_compute. eexists _, _, _. repeat split. Qed.

(** ** Further properties: what a batch adds *)

Lemma bind_done {A B} (m : M A) (k : A -> M B) w b w' :
  bind m k w = Done b w' ->
  exists a w1, m w = Done a w1 /\ k a w1 = Done b w'.
Proof.
  unfold bind. destruct (m w) as [a w1|e w1|w1]; [|discriminate..].
  intros H. by exists a, w1.
Qed.

(** Every tweet of a batch is known beforehand or among the written ones. *)
Lemma fresh_covers tweets ids tw :
  tw ∈ tweets ->
  Tweet.id tw ∈ ids \/ Tweet.id tw ∈ map Tweet.id (fresh tweets ids).
Proof.
  revert ids. induction tweets as [|tw' rest IH]; intros ids Hin; simpl.
  - by apply elem_of_nil in Hin.
  - apply elem_of_cons in Hin as [->|Hin].
    + destruct (decide (Tweet.id tw' ∈ ids)); [by left|].
      right. simpl. apply elem_of_cons. by left.
    + destruct (decide (Tweet.id tw' ∈ ids)) as [Hk|Hk]; [by apply IH|].
      destruct (IH ({[Tweet.id tw']} ∪ ids) Hin) as [H|H].
      * apply elem_of_union in H as [H|H]; [|by left].
        apply elem_of_singleton in H. right. simpl. rewrite H.
        apply elem_of_cons. by left.
      * right. simpl. apply elem_of_cons. by right.
Qed.

Lemma fresh_nil tweets ids :
  (forall tw, tw ∈ tweets -> Tweet.id tw ∈ ids) -> fresh tweets ids = [].
Proof.
  induction tweets as [|tw rest IH]; intros Hall; simpl; [reflexivity|].
  destruct (decide (Tweet.id tw ∈ ids)) as [Hk|Hk].
  - apply IH. intros tw' Hin. apply Hall, elem_of_cons. by right.
  - destruct Hk. apply Hall, elem_of_cons. by left.
Qed.

Lemma fresh_ids tweets (ids : gset string) :
  list_to_set (map Tweet.id (fresh tweets ids))
  = (list_to_set (map Tweet.id tweets) ∖ ids : gset string).
Proof.
  apply set_eq. intros x.
  rewrite elem_of_difference, !elem_of_list_to_set. split.
  - intros Hx. split; [|by eapply fresh_not_known].
    apply list_elem_of_fmap in Hx as (tw & -> & Hin).
    apply list_elem_of_fmap. exists tw. split; [done|].
    by eapply fresh_from_batch.
  - intros [Hx Hn]. apply list_elem_of_fmap in Hx as (tw & -> & Hin).
    by destruct (fresh_covers tweets ids tw Hin).
Qed.

(** X1.  Saving a batch a second time, with the set of ids the first call
    left, writes no row, counts nothing and leaves the set as it is: a page
    that the service serves again adds nothing to the CSV file. *)
Theorem X1_save_tweets_batch_again (tweets : list Tweet.t) (ids ids' : gset string)
    (n : Z) (w w' : World) :
  save_tweets_batch tweets ids 0 w = Done (n, ids') w' ->
  save_tweets_batch tweets ids' 0 w' = Done (0, ids') w'.
Proof.
  rewrite !save_tweets_batch_spec. intros H. inversion H as [[Hn Hi Hw]].
  clear H Hn Hw. rewrite fresh_nil.
  - simpl. f_equal. f_equal; try lia. set_solver.
  - intros tw Hin. destruct (fresh_covers tweets ids tw Hin) as [Hk|Hk].
    + apply elem_of_union. by right.
    + apply elem_of_union. left. by apply elem_of_list_to_set.
Qed.

Lemma X1_save_tweets_batch_again_witness :
  exists n ids' w',
    save_tweets_batch [sample_tweet "2"; sample_tweet "3"; sample_tweet "3"]
      {["2"]} 0 (blank_world 0 []) = Done (n, ids') w'
    /\ tweets_file w' = Some [tweet_row (sample_tweet "3")]
    /\ save_tweets_batch [sample_tweet "2"; sample_tweet "3"; sample_tweet "3"]
         ids' 0 w' = Done (0, ids') w'.
Proof.
  eexists _, _, _. split; [by rewrite save_tweets_batch_spec|].
  split; [vm_compute; reflexivity|].
  eapply (X1_save_tweets_batch_again
            [sample_tweet "2"; sample_tweet "3"; sample_tweet "3"] {["2"]} _
            _ (blank_world 0 [])).
  by rewrite save_tweets_batch_spec.
Defined.

(** X2.  [save_tweets_batch] always returns.  The number it returns is the
    number of distinct ids of the batch that were not in the set, the set it
    leaves is the old one plus every id of the batch, and the CSV file grows
    by exactly that number of rows. *)
Theorem X2_save_tweets_batch_count (tweets : list Tweet.t) (ids : gset string)
    (w : World) :
  let added := size (list_to_set (map Tweet.id tweets) ∖ ids : gset string) in
  exists w',
    save_tweets_batch tweets ids 0 w
    = Done (Z.of_nat added, ids ∪ list_to_set (map Tweet.id tweets)) w'
    /\ row_count (tweets_file w') = row_count (tweets_file w) + Z.of_nat added
    /\ (added <= length tweets)%nat.
Proof.
  intros added.
  assert (Hadded : added = length (fresh tweets ids)).
  { unfold added. rewrite <- fresh_ids.
    rewrite size_list_to_set by apply fresh_NoDup. apply length_map. }
  exists (write_rows (map tweet_row (fresh tweets ids)) w).
  rewrite save_tweets_batch_spec, fresh_ids, Hadded. split; [|split].
  - simpl. f_equal. f_equal; try lia. clear.
    apply set_eq. intros x. destruct (decide (x ∈ ids)); set_solver.
  - rewrite write_rows_tweets_file. unfold row_count.
    destruct (fresh tweets ids) as [|tw l]; simpl; [lia|].
    rewrite length_app. simpl. rewrite length_map. lia.
  - clear. revert ids. induction tweets as [|tw rest IH]; intros ids; simpl; [lia|].
    destruct (decide (Tweet.id tw ∈ ids)); simpl; [specialize (IH ids)|
      specialize (IH ({[Tweet.id tw]} ∪ ids))]; lia.
Qed.

(** ** Further properties: [safe_search] and rate limits *)



(** X4.  A rate limit whose [rate_limit_reset] is [None] (the attribute is
    there, the header was not): [safe_search] computes [None - time.time()]
    and dies with [TypeError] right after the search, without waiting.  The
    loops of [1k.tweet.py] and [1k.tweet_3.py] die with it; the [try] of
    [1k.tweet_2.py] catches it and the round is counted as a failure with
    the strategy rotated; [safe_search_with_retry] of
    [Dynamic_scrapping_X.py] waits [RETRY_DELAYS[attempt]] and goes on. *)
Theorem X4_rate_limit_without_reset_time (rs : list Reply) (w : World)
    (q : string) (p : PyVal) (c : Z) (cur : PyVal)
    (st1 : Tweet1k.Loop) (H : string) (st3 : Tweet1k_3.Loop)
    (ymd : Q -> string) (st2 : Tweet1k_2.Loop) (rest : list nat) :
  replies w = TooManyRequests (Present None) :: rs ->
  Tweet1k.safe_search q p c cur w = Raised TypeError (after_search w rs q p c cur)
  /\ Tweet1k.body st1 w
     = Raised TypeError
         (after_search w rs Tweet1k.QUERY (Tweet1k.product st1)
            Tweet1k.BATCH_SIZE (Tweet1k.cursor st1))
  /\ Tweet1k_3.body H st3 w
     = Raised TypeError
         (after_search w rs Tweet1k_3.QUERY Tweet1k_3.PRODUCT
            Tweet1k_3.BATCH_SIZE (Tweet1k_3.cursor st3))
  /\ (0 <= Tweet1k_2.strategy_index st2 < 2 ->
      exists w',
        Tweet1k_2.body ymd st2 w
        = Done (Tweet1k_2.rotate st2 (Tweet1k_2.existing_ids st2)) w'
        /\ replies w' = rs
        /\ tweets_file w' = tweets_file w)
  /\ DynX.attempts p (0%nat :: rest) q c cur w
     = DynX.attempts p rest q c cur
         (after_rate_limit w rs q p c cur (inject_Z 5)).
Proof.
  intros Hr.
  assert (Hs : forall q p c cur,
    Tweet1k.safe_search q p c cur w
    = Raised TypeError (after_search w rs q p c cur)).
  { intros q' p' c' cur'. unfold Tweet1k.safe_search. rewrite Hr.
    cbn [length Tweet1k.safe_search_rec].
    unfold bind, search_tweet. by rewrite Hr. }
  split; [apply Hs|]. split; [|split; [|split]].
  - unfold Tweet1k.body, bind. by rewrite Hs.
  - unfold Tweet1k_3.body, Tweet1k_3.safe_search, bind. by rewrite Hs.
  - intros Hi. unfold Tweet1k_2.body, Tweet1k_2.generate_query_variations.
    unfold bind at 1.
    assert (exists s, py_nth Tweet1k_2.SEARCH_STRATEGIES
                        (Tweet1k_2.strategy_index st2) = Some s) as [s Hn].
    { assert (Tweet1k_2.strategy_index st2 = 0 \/ Tweet1k_2.strategy_index st2 = 1)
        as [-> | ->] by lia; by eexists. }
    rewrite Hn. unfold bind at 1, ret at 1. unfold bind at 1.
    unfold catch, Tweet1k_2.attempt, Tweet1k_2.safe_search. unfold bind at 1.
    rewrite Hs. unfold ret at 1.
    unfold Tweet1k_2.save_checkpoint, dump_checkpoint, randint, sleep, bind, ret.
    destruct (0 <? _); eexists; (split; [reflexivity|]); by split.
  - cbn [DynX.attempts]. unfold bind at 1, search_tweet. rewrite Hr.
    cbn [reset_given]. unfold bind, DynX.sleep_retry_delay, sleep. simpl.
    unfold after_rate_limit, emit. simpl. by rewrite <- app_assoc.
Qed.

Lemma X4_rate_limit_without_reset_time_witness :
  replies (blank_world 1000 [TooManyRequests (Present None)])
  = [TooManyRequests (Present None)]
  /\ 0 <= Tweet1k_2.strategy_index first_round < 2
  /\ Tweet1k.body tweet1k_start (blank_world 1000 [TooManyRequests (Present None)])
     = Raised TypeError
         (after_search (blank_world 1000 [TooManyRequests (Present None)]) []
            Tweet1k.QUERY (VStr "Latest") 20 VNone)
  /\ exists w',
       Tweet1k_2.body sample_ymd first_round
         (blank_world 1000 [TooManyRequests (Present None)])
       = Done (Tweet1k_2.rotate first_round ∅) w'.
Proof.
  split; [reflexivity|]. split; [simpl; lia|].
  destruct (X4_rate_limit_without_reset_time []
              (blank_world 1000 [TooManyRequests (Present None)])
              "q" (VStr "Latest") 20 VNone tweet1k_start "0123456789"
              paging_state3 sample_ymd first_round [] eq_refl)
    as (_ & H1 & _ & H2 & _).
  split; [exact H1|].
  destruct H2 as (w' & Hb & _); [simpl; lia|]. by exists w'.
Defined.

(** ** Further properties: [safe_search_with_retry] *)

Lemma dynx_attempts_failed PRODUCT attempt rest q c cur r rs w :
  replies w = r :: rs -> (attempt < 3)%nat -> settled r = None ->
  exists w1,
    DynX.attempts PRODUCT (attempt :: rest) q c cur w
    = DynX.attempts PRODUCT rest q c cur w1
    /\ replies w1 = rs
    /\ tweets_file w1 = tweets_file w
    /\ checkpoint_file w1 = checkpoint_file w.
Proof.
  intros Hr Ha Hn. cbn [DynX.attempts]. unfold bind at 1, search_tweet.
  rewrite Hr. destruct r as [pg|a|]; [discriminate| |].
  - destruct (reset_given a).
    + unfold bind, time_time, sleep. by eexists.
    + destruct attempt as [|[|[|]]]; try lia;
        unfold bind, DynX.sleep_retry_delay, sleep; simpl; by eexists.
  - destruct attempt as [|[|[|]]]; try lia;
      unfold bind, DynX.sleep_retry_delay, sleep, ret; simpl; by eexists.
Qed.

Lemma dyninit_attempts_failed PRODUCT attempt rest q c cur r rs w :
  replies w = r :: rs -> (attempt < 3)%nat -> settled r = None ->
  exists w1,
    DynInit.attempts PRODUCT (attempt :: rest) q c cur w
    = DynInit.attempts PRODUCT rest q c cur w1
    /\ replies w1 = rs
    /\ tweets_file w1 = tweets_file w
    /\ checkpoint_file w1 = checkpoint_file w.
Proof.
  intros Hr Ha Hn. cbn [DynInit.attempts]. unfold bind at 1, search_tweet.
  rewrite Hr. destruct r as [pg|a|]; [discriminate| |].
  - destruct (reset_given a).
    + unfold bind, time_time, sleep. by eexists.
    + destruct attempt as [|[|[|]]]; try lia;
        unfold bind, DynInit.sleep_retry_delay, sleep; simpl; by eexists.
  - destruct attempt as [|[|[|]]]; try lia;
      unfold bind, DynInit.sleep_retry_delay, sleep, ret; simpl; by eexists.
Qed.

Lemma dynx_attempts_result PRODUCT attempt rest q c cur pg rs w :
  replies w = Result pg :: rs ->
  DynX.attempts PRODUCT (attempt :: rest) q c cur w
  = Done (Some pg) (after_search w rs q PRODUCT c cur).
Proof.
  intros Hr. cbn [DynX.attempts]. unfold bind, search_tweet. by rewrite Hr.
Qed.

Lemma dyninit_attempts_result PRODUCT attempt rest q c cur pg rs w :
  replies w = Result pg :: rs ->
  DynInit.attempts PRODUCT (attempt :: rest) q c cur w
  = Done (Some pg) (after_search w rs q PRODUCT c cur).
Proof.
  intros Hr. cbn [DynInit.attempts]. unfold bind, search_tweet. by rewrite Hr.
Qed.

(** An answer is a result, or the attempt that got it has failed. *)
Lemma settled_cases (r : Reply) :
  (exists pg, r = Result pg) \/ settled r = None.
Proof. destruct r; [left; by eexists | by right..]. Qed.


(** X6.  The waits of [safe_search_with_retry] when the service tells no
    reset time: whatever the three answers are, the call spends at most
    5 + 15 + 30 seconds waiting.  Three errors in a row cost 5 and 15
    seconds and the call returns right after the third; three rate limits
    in a row cost 5, 15 and 30 seconds, the last wait being spent although
    no attempt follows it. *)
Theorem X6_retry_waits (PRODUCT : PyVal) (q : string) (c : Z) (cur : PyVal)
    (rs : list Reply) (w0 : World) :
  let s := EvSearch q PRODUCT c cur in
  let run rs' :=
    world_of (DynX.safe_search_with_retry PRODUCT q c cur (restart w0 (rs' ++ rs))) in
  let run' rs' :=
    world_of (DynInit.safe_search_with_retry PRODUCT q c cur (restart w0 (rs' ++ rs))) in
  (forall r1 r2 r3,
     no_reset_time r1 = true -> no_reset_time r2 = true -> no_reset_time r3 = true ->
     (clock (run [r1; r2; r3]) <= clock w0 + 50)%Q
     /\ (clock (run' [r1; r2; r3]) <= clock w0 + 50)%Q)
  /\ journal (run [OtherException; OtherException; OtherException])
     = [s; EvSleep 5; s; EvSleep 15; s]
  /\ journal (run' [OtherException; OtherException; OtherException])
     = [s; EvSleep 5; s; EvSleep 15; s]
  /\ journal (run [TooManyRequests Absent; TooManyRequests Absent;
                   TooManyRequests Absent])
     = [s; EvSleep 5; s; EvSleep 15; s; EvSleep 30]
  /\ journal (run' [TooManyRequests Absent; TooManyRequests Absent;
                    TooManyRequests Absent])
     = [s; EvSleep 5; s; EvSleep 15; s; EvSleep 30].
Proof.
  intros s run run'. split; [|by repeat split].
  intros r1 r2 r3 H1 H2 H3. unfold run, run'.
  unfold DynX.safe_search_with_retry, DynInit.safe_search_with_retry.
  cbn [seq DynX.MAX_RETRIES DynInit.MAX_RETRIES DynX.attempts DynInit.attempts].
  unfold bind, search_tweet.
  destruct r1 as [p1|a1|]; cbn [no_reset_time] in H1;
    [simpl; split; lra| destruct (reset_given a1) eqn:E1; [discriminate|] |];
    (destruct r2 as [p2|a2|]; cbn [no_reset_time] in H2;
     [| destruct (reset_given a2) eqn:E2; [discriminate|] |]);
    (destruct r3 as [p3|a3|]; cbn [no_reset_time] in H3;
     [| destruct (reset_given a3) eqn:E3; [discriminate|] |]);
    repeat (simpl; rewrite ?E1, ?E2, ?E3); unfold inject_Z; split; lra.
Qed.

Lemma X6_retry_waits_witness :
  no_reset_time OtherException = true
  /\ no_reset_time (TooManyRequests (Present None)) = true
  /\ (clock (world_of (DynX.safe_search_with_retry (VStr "Latest") "q" 20 VNone
                         (restart failing_world
                            ([OtherException; TooManyRequests (Present None);
                              OtherException] ++ []))))
      <= clock failing_world + 50)%Q.
Proof.
  split; [reflexivity|]. split; [reflexivity|].
  destruct (X6_retry_waits (VStr "Latest") "q" 20 VNone [] failing_world)
    as (Hbound & _).
  apply (Hbound OtherException (TooManyRequests (Present None)) OtherException);
    reflexivity.
Defined.

(** ** Further properties: rotating products and query variations *)

(** X7.  The product rotation of [1k.tweet.py]: the next product is always
    one of the three, the three are visited in a cycle of length three
    (Top, Latest, Media, Top), and a value that is none of them, as a
    checkpoint edited by hand may hold, is followed by 'Latest'. *)
Theorem X7_next_product_cycle (p : PyVal) :
  (exists s, Tweet1k.next_product p = VStr s /\ s ∈ Tweet1k.products)
  /\ (forall s, s ∈ Tweet1k.products ->
        Tweet1k.next_product (VStr s) <> VStr s
        /\ Tweet1k.next_product (Tweet1k.next_product (VStr s)) <> VStr s
        /\ Tweet1k.next_product
             (Tweet1k.next_product (Tweet1k.next_product (VStr s))) = VStr s)
  /\ ((forall s, s ∈ Tweet1k.products -> p <> VStr s) ->
      Tweet1k.next_product p = VStr "Latest").
Proof.
  assert (Hcycle : forall s, s ∈ Tweet1k.products ->
            s = "Top" \/ s = "Latest" \/ s = "Media").
  { intros s Hs. apply list_elem_of_In in Hs. simpl in Hs. intuition. }
  assert (Hother : (forall s, s ∈ Tweet1k.products -> p <> VStr s) ->
            Tweet1k.next_product p = VStr "Latest").
  { intros Hp. destruct p as [|z|s|t]; try reflexivity.
    unfold Tweet1k.next_product.
    rewrite (proj2 (list_find_None (fun x => x = s) Tweet1k.products));
      [reflexivity|].
    apply Forall_forall. intros x Hx ->. by apply (Hp s). }
  split; [|split; [|exact Hother]].
  - assert (Hin : (forall s, s ∈ Tweet1k.products -> p <> VStr s)
                  \/ exists s, p = VStr s /\ s ∈ Tweet1k.products).
    { destruct p as [|z|s|t]; try (left; intros; discriminate).
      destruct (decide (s ∈ Tweet1k.products)) as [Hs|Hs].
      - right. by exists s.
      - left. intros s' Hs' [= ->]. done. }
    destruct Hin as [Hp|(s & Hp & Hs)]; [|subst p].
    + exists "Latest". split; [by apply Hother|]. unfold Tweet1k.products.
      set_solver.
    + destruct (Hcycle s Hs) as [-> | [-> | ->]]; eexists;
        (split; [reflexivity|]); unfold Tweet1k.products; set_solver.
  - intros s Hs. destruct (Hcycle s Hs) as [-> | [-> | ->]];
      (split; [discriminate|]); (split; [discriminate|]); reflexivity.
Qed.

Lemma X7_next_product_cycle_witness :
  "Media" ∈ Tweet1k.products
  /\ (forall s, s ∈ Tweet1k.products -> VStr "Videos" <> VStr s)
  /\ Tweet1k.next_product (VStr "Media") = VStr "Top"
  /\ Tweet1k.next_product (VStr "Videos") = VStr "Latest".
Proof.
  assert (H1 : "Media" ∈ Tweet1k.products)
    by (apply (bool_decide_unpack _); vm_compute; reflexivity).
  assert (H2 : forall s, s ∈ Tweet1k.products -> VStr "Videos" <> VStr s).
  { intros s Hs [= <-]. revert Hs. apply (bool_decide_unpack _).
    vm_compute. reflexivity. }
  destruct (X7_next_product_cycle (VStr "Videos")) as (_ & _ & Hother).
  destruct (X7_next_product_cycle (VStr "Media")) as (_ & Hcycle & _).
  split; [exact H1|]. split; [exact H2|]. split; [reflexivity|].
  exact (Hother H2).
Defined.

(** X8.  [generate_query_variations] never fails, whatever the index: the
    query it returns is one of the eight variations, index 0 gives the base
    query itself, and indices that differ by 8 give the same query (also
    negative ones, as Python's [%] is never negative here). *)
Theorem X8_query_variations_cycle (ymd : Q -> string) (base_query : string)
    (i : Z) (w : World) :
  Tweet1k_2.generate_query_variations ymd base_query 0 w = Done base_query w
  /\ Tweet1k_2.generate_query_variations ymd base_query (i + 8) w
     = Tweet1k_2.generate_query_variations ymd base_query i w
  /\ exists v,
       Tweet1k_2.generate_query_variations ymd base_query i w = Done v w
       /\ v ∈ Tweet1k_2.variations ymd base_query (clock w).
Proof.
  unfold Tweet1k_2.generate_query_variations. rewrite variations_length.
  split; [reflexivity|]. split.
  - replace (i + 8) with (i + 1 * Z.of_nat 8) by lia.
    by rewrite Z_mod_plus_full.
  - eexists. split; [reflexivity|].
    pose proof (Z.mod_pos_bound i (Z.of_nat 8) ltac:(lia)) as Hb.
    assert (Hn : (Z.to_nat (i mod Z.of_nat 8) < 8)%nat) by lia.
    revert Hn. generalize (Z.to_nat (i mod Z.of_nat 8)). intros n Hn.
    unfold Tweet1k_2.variations.
    do 8 (destruct n as [|n]; [simpl; set_solver|]). lia.
Qed.

(** ** Further properties: when the loops give up *)

(** A round of [1k.tweet.py] on an answer that brings no tweet. *)
Lemma tweet1k_body_fruitless st r rs w :
  replies w = r :: rs -> fruitless r = true ->
  exists w',
    Tweet1k.body st w
    = Done (Tweet1k.mkLoop (Tweet1k.collected_count st) VNone
              (Tweet1k.next_product (Tweet1k.product st))
              (Tweet1k.existing_ids st)) w'
    /\ replies w' = rs
    /\ tweets_file w' = tweets_file w.
Proof.
  intros Hr Hf. unfold Tweet1k.body. unfold bind at 1.
  unfold Tweet1k.safe_search. rewrite Hr.
  cbn [length Tweet1k.safe_search_rec]. unfold bind at 1, search_tweet.
  rewrite Hr. destruct r as [pg|a|]; [|discriminate|].
  - simpl in Hf. unfold ret at 1, Tweet1k.handle.
    destruct (tweets pg); [|discriminate]. by eexists.
  - by eexists.
Qed.

(** X9.  The loop of [1k.tweet.py] has no failure cap.  As long as the
    service answers with errors or empty pages only and the target is not
    reached, the loop does not return, however many rounds it is given: it
    is still searching, or waiting for an answer, with the count and the
    CSV file as they were. *)
Theorem X9_tweet1k_loop_never_gives_up (rounds : nat) (st : Tweet1k.Loop)
    (w : World) :
  Tweet1k.collected_count st < Tweet1k.MAX_TWEETS ->
  Forall (fun r => fruitless r = true) (replies w) ->
  exists w',
    Tweet1k.loop rounds st w = Pending w'
    /\ tweets_file w' = tweets_file w.
Proof.
  revert st w. induction rounds as [|rounds IH]; intros st w Hc Hall;
    cbn [Tweet1k.loop]; apply Z.ltb_lt in Hc as Hc'; rewrite Hc'.
  - by exists w.
  - destruct (replies w) as [|r rs] eqn:Hr.
    + exists w. split; [|reflexivity].
      unfold Tweet1k.body, bind, Tweet1k.safe_search. rewrite Hr. reflexivity.
    + inversion Hall as [|? ? Hf Hrest]; subst.
      destruct (tweet1k_body_fruitless st r rs w Hr Hf) as (w1 & Hb & Hr1 & Hf1).
      unfold bind at 1. rewrite Hb.
      destruct (IH (Tweet1k.mkLoop (Tweet1k.collected_count st) VNone
                      (Tweet1k.next_product (Tweet1k.product st))
                      (Tweet1k.existing_ids st)) w1 Hc)
        as (w' & Hl & Hf'); [by rewrite Hr1|].
      exists w'. split; [exact Hl|]. by rewrite Hf'.
Qed.

Lemma X9_tweet1k_loop_never_gives_up_witness :
  Tweet1k.collected_count tweet1k_start < Tweet1k.MAX_TWEETS
  /\ Forall (fun r => fruitless r = true) (replies failing_world)
  /\ exists w',
       Tweet1k.loop 50 tweet1k_start failing_world = Pending w'
       /\ tweets_file w' = tweets_file failing_world.
Proof.
  assert (H1 : Tweet1k.collected_count tweet1k_start < Tweet1k.MAX_TWEETS)
    by reflexivity.
  assert (H2 : Forall (fun r => fruitless r = true) (replies failing_world))
    by (repeat constructor).
  split; [exact H1|]. split; [exact H2|].
  exact (X9_tweet1k_loop_never_gives_up 50 tweet1k_start failing_world H1 H2).
Defined.

(** A round of [1k.tweet_3.py] on an answer that brings no tweet. *)
Lemma tweet3_body_fruitless H st r rs w :
  replies w = r :: rs -> fruitless r = true ->
  exists ckpt' w',
    Tweet1k_3.body H st w
    = Done (Tweet1k_3.mkLoop (Tweet1k_3.collected st) VNone
              (Tweet1k_3.failures st + 1) (Tweet1k_3.existing_ids st) ckpt') w'
    /\ replies w' = rs
    /\ tweets_file w' = tweets_file w.
Proof.
  intros Hr Hf. unfold Tweet1k_3.body. unfold bind at 1.
  unfold Tweet1k_3.safe_search, Tweet1k.safe_search.
  rewrite Hr. cbn [length Tweet1k.safe_search_rec].
  unfold bind at 1, search_tweet. rewrite Hr.
  destruct r as [pg|a|]; [|discriminate|].
  - simpl in Hf. unfold ret at 1, bind at 1, Tweet1k_3.handle.
    destruct (tweets pg); [|discriminate]. unfold ret at 1.
    unfold Tweet1k_3.checkpoint_and_wait, Tweet1k_3.save_checkpoint,
      dump_checkpoint, randint, sleep, bind, ret. cbn [Tweet1k_3.failures].
    destruct (_ =? 0); by eexists _, _.
  - unfold Tweet1k_3.handle, Tweet1k_3.checkpoint_and_wait,
      Tweet1k_3.save_checkpoint, dump_checkpoint, randint, sleep, bind, ret.
    cbn [Tweet1k_3.failures]. destruct (_ =? 0); by eexists _, _.
Qed.

(** X10.  The loop of [1k.tweet_3.py] gives up after 20 rounds in a row
    that bring no tweet.  Started below the target with [failures] at most
    20, on answers that are errors or empty pages, it returns after exactly
    [20 - failures] searches with [failures = 20], the count and the CSV
    file as they were, and, if a round was run, no cursor. *)
Theorem X10_tweet3_loop_gives_up (H : string) (rounds : nat)
    (st : Tweet1k_3.Loop) (w : World) :
  Tweet1k_3.collected st < Tweet1k_3.MAX_TWEETS ->
  Tweet1k_3.failures st <= 20 ->
  Forall (fun r => fruitless r = true) (replies w) ->
  20 - Tweet1k_3.failures st <= Z.of_nat (length (replies w)) ->
  20 - Tweet1k_3.failures st <= Z.of_nat rounds ->
  exists st' w',
    Tweet1k_3.loop H rounds st w = Done st' w'
    /\ Tweet1k_3.failures st' = 20
    /\ Tweet1k_3.collected st' = Tweet1k_3.collected st
    /\ Tweet1k_3.cursor st'
       = (if Tweet1k_3.failures st <? 20 then VNone else Tweet1k_3.cursor st)
    /\ Z.of_nat (length (replies w'))
       = Z.of_nat (length (replies w)) - (20 - Tweet1k_3.failures st)
    /\ tweets_file w' = tweets_file w.
Proof.
  revert st w. induction rounds as [|rounds IH]; intros st w Hc Hf Hall Hrs Hn;
    cbn [Tweet1k_3.loop]; apply Z.ltb_lt in Hc as Hc'; rewrite Hc';
    destruct (Tweet1k_3.failures st <? 20) eqn:Hlt; cbn [andb];
    try (apply Z.ltb_ge in Hlt; exists st, w; unfold ret;
         repeat split; lia).
  - apply Z.ltb_lt in Hlt. lia.
  - apply Z.ltb_lt in Hlt. destruct (replies w) as [|r rs] eqn:Hr;
      [simpl in Hrs; lia|].
    inversion Hall as [|? ? Hfr Hrest]; subst.
    destruct (tweet3_body_fruitless H st r rs w Hr Hfr)
      as (ckpt' & w1 & Hb & Hr1 & Hf1).
    unfold bind at 1. rewrite Hb.
    destruct (IH (Tweet1k_3.mkLoop (Tweet1k_3.collected st) VNone
                    (Tweet1k_3.failures st + 1) (Tweet1k_3.existing_ids st)
                    ckpt') w1)
      as (st' & w' & Hl & Hf' & Hc2 & Hcur & Hlen & Hfile);
      cbn [Tweet1k_3.collected Tweet1k_3.failures Tweet1k_3.cursor] in *;
      try lia; try (rewrite Hr1; simpl in Hrs; lia || done).
    exists st', w'. split; [exact Hl|]. split; [exact Hf'|].
    split; [exact Hc2|]. split; [by destruct (_ <? 20) in Hcur|].
    split; [rewrite Hlen, Hr1; simpl length; lia|]. by rewrite Hfile.
Qed.

Lemma X10_tweet3_loop_gives_up_witness :
  exists st' w',
    Tweet1k_3.loop "0123456789" 5
      (Tweet1k_3.mkLoop 40 (VStr "c7") 18 {["1"]} ∅) failing_world
    = Done st' w'
    /\ Tweet1k_3.failures st' = 20
    /\ Tweet1k_3.cursor st' = VNone
    /\ length (replies w') = 1%nat.
Proof.
  destruct (X10_tweet3_loop_gives_up "0123456789" 5
              (Tweet1k_3.mkLoop 40 (VStr "c7") 18 {["1"]} ∅) failing_world)
    as (st' & w' & Hl & Hf & _ & Hcur & Hlen & _);
    [reflexivity | simpl; lia | repeat constructor | simpl; lia | simpl; lia |].
  exists st', w'. split; [exact Hl|]. split; [exact Hf|].
  split; [exact Hcur|]. simpl in Hlen. lia.
Defined.

(** ** Further properties: checkpoints across a restart *)

(** X11.  [1k.tweet_3.py] resumes where its last completed round ended:
    when a round has returned and the script is started again on the files
    it left, the loop begins with the count and the cursor of that round
    and with the dict that was saved.  The failure count is not part of
    the checkpoint and starts again at 0. *)
Theorem X11_tweet3_restart_resumes (H : string) (rounds : nat)
    (st st' : Tweet1k_3.Loop) (w w' : World) (rs : list Reply) :
  Tweet1k_3.body H st w = Done st' w' ->
  exists w'',
    Tweet1k_3.run H rounds (restart w' rs)
    = Tweet1k_3.loop H rounds
        (Tweet1k_3.mkLoop (Tweet1k_3.collected st') (Tweet1k_3.cursor st') 0
           (init_existing_ids (tweets_file w')) (Tweet1k_3.ckpt st')) w''
    /\ replies w'' = rs
    /\ checkpoint_file w'' = checkpoint_file w'.
Proof.
  intros Hb. unfold Tweet1k_3.body in Hb.
  apply bind_done in Hb as (result & w1 & _ & Hb).
  apply bind_done in Hb as (st1 & w2 & _ & Hcw).
  destruct (tweet3_checkpoint_and_wait_journal H st1 w2)
    as (delay & w3 & Hcw' & _ & _ & Hck & _).
  cbn zeta in Hcw', Hck. rewrite Hcw' in Hcw. injection Hcw as <- <-.
  unfold Tweet1k_3.run, Tweet1k_3.init, Tweet1k_3.load_checkpoint.
  unfold bind at 1 2. cbn [checkpoint_file restart]. rewrite Hck.
  rewrite tweet3_load_matching by apply lookup_insert_eq.
  unfold getitem at 1.
  rewrite lookup_insert_ne, lookup_insert_ne, lookup_insert_eq by done.
  unfold bind at 1, ret at 1. unfold getitem at 1.
  rewrite lookup_insert_ne, lookup_insert_eq by done.
  unfold bind, ret, read_existing_ids, is_new_file, open_append, writerow, as_int.
  unfold restart.
  cbn [clock replies rng draws tweets_file checkpoint_file journal].
  destruct (new_file (tweets_file w3)); by eexists.
Qed.

Lemma X11_tweet3_restart_resumes_witness :
  exists st' w' w'',
    Tweet1k_3.body "0123456789" paging_state3 failing_world = Done st' w'
    /\ Tweet1k_3.run "0123456789" 0 (restart w' [])
       = Tweet1k_3.loop "0123456789" 0
           (Tweet1k_3.mkLoop 40 VNone 0 {["1"]} (Tweet1k_3.ckpt st')) w''.
Proof.
  destruct (tweet3_body_fruitless "0123456789" paging_state3 OtherException
              [OtherException; OtherException] failing_world eq_refl eq_refl)
    as (ckpt' & w' & Hb & _ & Hf).
  destruct (X11_tweet3_restart_resumes "0123456789" 0 paging_state3 _
              failing_world w' [] Hb) as (w'' & Hrun & _).
  eexists _, w', w''. split; [exact Hb|].
  rewrite Hrun, Hf. reflexivity.
Defined.

(** X12.  A checkpoint file that parses to an object without a ['count']
    key: [1k.tweet.py], [1k.tweet_2.py] and [Dynamic_scrapping_X.py] read
    [checkpoint['count']] and die with [KeyError] before the CSV file is
    opened or anything else is done, while [Dynamic_scrapping/init.py]
    reads it with [.get] and enters its loop with a count of 0, the CSV
    file opened and, if it was new, its header written. *)
Theorem X12_checkpoint_without_count (d : gmap string PyVal) (w : World)
    (rounds : nat) (QUERY BASE_QUERY DAY DAY_UNTIL : string) (PRODUCT : PyVal)
    (MAX_TWEETS BATCH_SIZE MAX_FAILURES : Z) :
  checkpoint_file w = Some (Parsed (JDict d)) ->
  d !! "count" = None ->
  Tweet1k.run_all_operations rounds w = Raised KeyError w
  /\ Tweet1k_2.read_checkpoint w = Raised KeyError w
  /\ DynX.run QUERY PRODUCT MAX_TWEETS rounds w = Raised KeyError w
  /\ DynInit.run BASE_QUERY DAY DAY_UNTIL PRODUCT MAX_TWEETS BATCH_SIZE
       MAX_FAILURES rounds w
     = DynInit.loop BASE_QUERY DAY DAY_UNTIL PRODUCT MAX_TWEETS BATCH_SIZE
         MAX_FAILURES rounds
         (DynInit.mkLoop 0 (dict_get d "cursor" VNone)
            (dict_get d "last_success" VNone) 0 0 ∅
            (init_existing_ids (tweets_file w)) d)
         (world_of ((open_append ;;;
                     if new_file (tweets_file w) then writerow HEADER else ret tt)
                      w)).
Proof.
  intros Hf Hd. repeat split.
  - unfold Tweet1k.run_all_operations, Tweet1k.load_checkpoint, bind.
    rewrite Hf. simpl. unfold getitem. by rewrite Hd.
  - unfold Tweet1k_2.read_checkpoint, Tweet1k_2.load_checkpoint, bind.
    rewrite Hf. simpl. unfold getitem. by rewrite Hd.
  - unfold DynX.run, DynX.load_checkpoint, bind.
    rewrite Hf. simpl. unfold getitem. by rewrite Hd.
  - unfold DynInit.run, DynInit.load_checkpoint. unfold bind at 1.
    rewrite Hf. cbn [json_load json_get_default].
    unfold bind at 1, ret at 1. unfold bind at 1, ret at 1.
    unfold bind at 1, ret at 1. unfold dict_get at 1. rewrite Hd.
    cbn [default]. unfold read_existing_ids, is_new_file, open_append, bind.
    destruct (new_file (tweets_file w)); reflexivity.
Qed.

Lemma X12_checkpoint_without_count_witness :
  checkpoint_file (with_checkpoint (blank_world 1000 []) (Some (Parsed (JDict ∅))))
  = Some (Parsed (JDict ∅))
  /\ (∅ : gmap string PyVal) !! "count" = None
  /\ Tweet1k.run_all_operations 3
       (with_checkpoint (blank_world 1000 []) (Some (Parsed (JDict ∅))))
     = Raised KeyError
         (with_checkpoint (blank_world 1000 []) (Some (Parsed (JDict ∅)))).
Proof.
  split; [reflexivity|]. split; [reflexivity|].
  apply (X12_checkpoint_without_count ∅
           (with_checkpoint (blank_world 1000 []) (Some (Parsed (JDict ∅))))
           3 "q" "q" "2025-09-03" "2025-09-04" (VStr "Latest") 100 20 3
           eq_refl (lookup_empty "count")).
Defined.

(** ** Further properties: the rounds of [Dynamic_scrapping/init.py] *)

Lemma dyninit_handle_inv st result w h st1 w1 :
  DynInit.handle st result w = Done (h, st1) w1 ->
  h <> Some DynInit.NoNewPages
  /\ DynInit.failures st <= DynInit.failures st1
  /\ DynInit.collected st <= DynInit.collected st1
  /\ DynInit.seen_cursors st ⊆ DynInit.seen_cursors st1
  /\ DynInit.existing_ids st ⊆ DynInit.existing_ids st1.
Proof.
  destruct result as [p|]; [destruct (tweets p) as [|tw tws] eqn:Htw|].
  - unfold DynInit.handle. rewrite Htw. intros [= <- <- <-]. simpl.
    repeat split; (done || lia).
  - destruct (dyninit_handle_page st p w)
      as (st' & w' & Hh & Hcol & Hfail & _ & _ & Hseen & Hids & _);
      [by rewrite Htw|].
    rewrite Hh. intros [= <- <- <-]. rewrite Hcol, Hfail, Hseen, Hids.
    split; [|split; [lia|split; [lia|split]]].
    + destruct (found_cursor p); [destruct (decide _)|]; discriminate.
    + destruct (found_cursor p); set_solver.
    + set_solver.
  - unfold DynInit.handle. intros [= <- <- <-]. simpl.
    repeat split; (done || lia).
Qed.

Lemma dyninit_checkpoint_and_wait_inv BASE_QUERY DAY PRODUCT st w e st' w' :
  DynInit.checkpoint_and_wait BASE_QUERY DAY PRODUCT st w = Done (e, st') w' ->
  e = (if 3 <=? DynInit.no_new_pages st then Some DynInit.NoNewPages else None)
  /\ DynInit.failures st' = DynInit.failures st
  /\ DynInit.collected st' = DynInit.collected st
  /\ DynInit.seen_cursors st' = DynInit.seen_cursors st
  /\ DynInit.existing_ids st' = DynInit.existing_ids st
  /\ DynInit.no_new_pages st' = DynInit.no_new_pages st
  /\ checkpoint_file w' = Some (Parsed (JDict (DynInit.ckpt st')))
  /\ DynInit.ckpt st' !! "count" = Some (VInt (DynInit.collected st'))
  /\ DynInit.ckpt st' !! "cursor" = Some (DynInit.cursor st')
  /\ DynInit.ckpt st' !! "last_success" = Some (DynInit.last_success st')
  /\ DynInit.ckpt st' !! "day" = Some (VStr DAY).
Proof.
  unfold DynInit.checkpoint_and_wait, DynInit.save_checkpoint, dump_checkpoint,
    update_ckpt, randint, sleep, bind, ret.
  destruct (3 <=? DynInit.no_new_pages st);
    [|destruct (DynInit.failures st =? 0)];
    intros [= <- <- <-]; simpl; repeat split;
    by rewrite ?lookup_insert_ne, lookup_insert_eq by done.
Qed.

Lemma dyninit_body_inv BASE_QUERY DAY DAY_UNTIL PRODUCT BATCH_SIZE st w e st' w' :
  DynInit.body BASE_QUERY DAY DAY_UNTIL PRODUCT BATCH_SIZE st w = Done (e, st') w' ->
  DynInit.failures st <= DynInit.failures st'
  /\ DynInit.collected st <= DynInit.collected st'
  /\ DynInit.seen_cursors st ⊆ DynInit.seen_cursors st'
  /\ DynInit.existing_ids st ⊆ DynInit.existing_ids st'.
Proof.
  unfold DynInit.body. intros Hb.
  apply bind_done in Hb as (result & w1 & _ & Hb).
  apply bind_done in Hb as ([h st1] & w2 & Hh & Hb).
  apply dyninit_handle_inv in Hh as (_ & Hf & Hc & Hs & Hi).
  destruct h as [x|].
  - injection Hb as <- <- <-. done.
  - apply dyninit_checkpoint_and_wait_inv in Hb
      as (_ & -> & -> & -> & -> & _). done.
Qed.

(** X13.  In [Dynamic_scrapping/init.py] nothing resets [failures]: over
    any run of the loop that returns, whichever way it is left, the failure
    count at the end is at least what it was at the start, as are the count
    of collected tweets, the set of cursors seen and the set of known ids.
    [--max-failures] therefore caps the failed rounds of the whole run, not
    the failed rounds in a row. *)
Theorem X13_dyninit_failures_never_reset
    (BASE_QUERY DAY DAY_UNTIL : string) (PRODUCT : PyVal)
    (MAX_TWEETS BATCH_SIZE MAX_FAILURES : Z) (rounds : nat)
    (st st' : DynInit.Loop) (w w' : World) (e : option DynInit.Exit) :
  DynInit.loop BASE_QUERY DAY DAY_UNTIL PRODUCT MAX_TWEETS BATCH_SIZE
    MAX_FAILURES rounds st w = Done (e, st') w' ->
  DynInit.failures st <= DynInit.failures st'
  /\ DynInit.collected st <= DynInit.collected st'
  /\ DynInit.seen_cursors st ⊆ DynInit.seen_cursors st'
  /\ DynInit.existing_ids st ⊆ DynInit.existing_ids st'.
Proof.
  revert st w. induction rounds as [|rounds IH]; intros st w;
    cbn [DynInit.loop]; destruct (_ && _);
    try (intros [= <- <- <-]; done); try discriminate.
  intros Hl. apply bind_done in Hl as ([h st1] & w1 & Hb & Hl).
  apply dyninit_body_inv in Hb as (Hf & Hc & Hs & Hi).
  destruct h as [x|].
  - injection Hl as <- <- <-. done.
  - apply IH in Hl as (Hf' & Hc' & Hs' & Hi').
    split; [lia|]. split; [lia|]. split; set_solver.
Qed.

Lemma X13_dyninit_failures_never_reset_witness :
  exists e st' w',
    DynInit.loop "q" "2025-09-03" "2025-09-04" (VStr "Latest") 100000 20 3
      5 day_start stuck_service = Done (e, st') w'
    /\ DynInit.failures day_start <= DynInit.failures st'
    /\ DynInit.collected day_start <= DynInit.collected st'.
Proof.
  assert (Hrun : exists e st' w',
            DynInit.loop "q" "2025-09-03" "2025-09-04" (VStr "Latest") 100000
              20 3 5 day_start stuck_service = Done (e, st') w')
    by (vm_compute; by eexists _, _, _).
  destruct Hrun as (e & st' & w' & Hrun). exists e, st', w'.
  split; [exact Hrun|].
  destruct (X13_dyninit_failures_never_reset _ _ _ _ _ _ _ _ _ _ _ _ _ Hrun)
    as (Hf & Hc & _).
  by split.
Defined.

(** X14.  A round of [Dynamic_scrapping/init.py] that returns without
    taking one of the two early [break]s has saved its state: the
    checkpoint file holds the dict the loop goes on with, whose count,
    cursor and time of last success are those of the loop and which is
    stamped with the day.  This covers the third [break] (three pages in a
    row without a new tweet), which is taken only after the save and
    exactly when the page counter has reached 3. *)
Theorem X14_dyninit_round_saves_checkpoint
    (BASE_QUERY DAY DAY_UNTIL : string) (PRODUCT : PyVal) (BATCH_SIZE : Z)
    (st st' : DynInit.Loop) (w w' : World) (e : option DynInit.Exit) :
  DynInit.body BASE_QUERY DAY DAY_UNTIL PRODUCT BATCH_SIZE st w = Done (e, st') w' ->
  e <> Some DynInit.NoNextCursor ->
  e <> Some DynInit.CursorRepeated ->
  checkpoint_file w' = Some (Parsed (JDict (DynInit.ckpt st')))
  /\ DynInit.ckpt st' !! "count" = Some (VInt (DynInit.collected st'))
  /\ DynInit.ckpt st' !! "cursor" = Some (DynInit.cursor st')
  /\ DynInit.ckpt st' !! "last_success" = Some (DynInit.last_success st')
  /\ DynInit.ckpt st' !! "day" = Some (VStr DAY)
  /\ (e = Some DynInit.NoNewPages <-> 3 <= DynInit.no_new_pages st').
Proof.
  unfold DynInit.body. intros Hb Hn1 Hn2.
  apply bind_done in Hb as (result & w1 & _ & Hb).
  apply bind_done in Hb as ([h st1] & w2 & Hh & Hb).
  destruct h as [x|].
  - injection Hb as <- <- <-.
    assert (Some x <> Some DynInit.NoNewPages)
      by (by apply dyninit_handle_inv in Hh as (? & _)).
    by destruct x.
  - apply dyninit_checkpoint_and_wait_inv in Hb
      as (He & _ & _ & _ & _ & Hnn & Hck & Hcount & Hcur & Hls & Hday).
    repeat (split; [assumption|]). rewrite Hnn, He.
    destruct (3 <=? DynInit.no_new_pages st1) eqn:E.
    + apply Z.leb_le in E. by split.
    + apply Z.leb_gt in E. split; [discriminate|lia].
Qed.

Lemma X14_dyninit_round_saves_checkpoint_witness :
  exists st' w',
    DynInit.body "q" "2025-09-03" "2025-09-04" (VStr "Latest") 20 day_start
      stuck_service = Done (None, st') w'
    /\ checkpoint_file w' = Some (Parsed (JDict (DynInit.ckpt st')))
    /\ DynInit.ckpt st' !! "count" = Some (VInt (DynInit.collected st')).
Proof.
  assert (Hrun : exists st' w',
            DynInit.body "q" "2025-09-03" "2025-09-04" (VStr "Latest") 20
              day_start stuck_service = Done (None, st') w')
    by (vm_compute; by eexists _, _).
  destruct Hrun as (st' & w' & Hrun). exists st', w'. split; [exact Hrun|].
  destruct (X14_dyninit_round_saves_checkpoint _ _ _ _ _ _ _ _ _ _ Hrun)
    as (Hck & Hcount & _); [discriminate..|].
  by split.
Defined.

(** ** Further properties: the rounds of [Dynamic_scrapping_X.py] *)

Lemma dynx_handle_inv st result w st1 w1 :
  DynX.handle st result w = Done st1 w1 ->
  DynX.ckpt st1 = DynX.ckpt st
  /\ (DynX.failures st1 = 0 \/ DynX.failures st1 = DynX.failures st + 1).
Proof.
  unfold DynX.handle.
  destruct result as [p|]; [destruct (tweets p) as [|tw tws]|];
    try (intros [= <- <-]; simpl; split; [done|by right]).
  unfold bind at 1. rewrite save_tweets_batch_spec.
  unfold bind at 1, now_isoformat at 1. unfold bind at 1.
  rewrite find_next_cursor_spec. intros [= <- <-]. simpl. split; [done|by left].
Qed.

(** X15.  Every round of [Dynamic_scrapping_X.py] that returns ends with
    the checkpoint saved and then one wait: the checkpoint file holds the
    dict the loop goes on with, whose count, cursor and time of last
    success are those of the loop; the wait that follows is 5 to 15 seconds
    after a stored page and 30 to 60 seconds times the failure count after
    a failed round.  The failure count is 0 or one more than before. *)
Theorem X15_dynx_round_ends_saved (QUERY : string) (PRODUCT : PyVal)
    (st st' : DynX.Loop) (w w' : World) :
  0 <= DynX.failures st ->
  DynX.body QUERY PRODUCT st w = Done st' w' ->
  checkpoint_file w' = Some (Parsed (JDict (DynX.ckpt st')))
  /\ DynX.ckpt st' !! "count" = Some (VInt (DynX.collected st'))
  /\ DynX.ckpt st' !! "cursor" = Some (DynX.cursor st')
  /\ DynX.ckpt st' !! "last_success" = Some (DynX.last_success st')
  /\ (DynX.failures st' = 0 \/ DynX.failures st' = DynX.failures st + 1)
  /\ exists delay earlier,
       journal w'
       = earlier ++ [EvSaveCheckpoint (DynX.ckpt st'); EvSleep (inject_Z delay)]
       /\ (if DynX.failures st' =? 0 then 5 <= delay <= 15
           else 30 * DynX.failures st' <= delay <= 60 * DynX.failures st').
Proof.
  intros Hf Hb. unfold DynX.body in Hb.
  apply bind_done in Hb as (result & w1 & _ & Hb).
  apply bind_done in Hb as (st1 & w2 & Hh & Hcw).
  apply dynx_handle_inv in Hh as (_ & Hfail).
  destruct (dynx_checkpoint_and_wait st1 w2 ltac:(lia))
    as (delay & w3 & Hcw' & Hj & _ & Hck & Hd).
  cbn zeta in Hcw', Hj, Hck. rewrite Hcw' in Hcw. injection Hcw as <- <-.
  cbn [DynX.ckpt DynX.collected DynX.cursor DynX.last_success DynX.failures].
  split; [exact Hck|]. unfold update_ckpt.
  split; [by rewrite ?lookup_insert_ne, lookup_insert_eq by done|].
  split; [by rewrite ?lookup_insert_ne, lookup_insert_eq by done|].
  split; [by rewrite lookup_insert_eq|]. split; [exact Hfail|].
  exists delay, (journal w2). by split.
Qed.

Lemma X15_dynx_round_ends_saved_witness :
  0 <= DynX.failures paging_state
  /\ exists st' w',
       DynX.body "q" (VStr "Latest") paging_state failing_world = Done st' w'
       /\ checkpoint_file w' = Some (Parsed (JDict (DynX.ckpt st')))
       /\ DynX.ckpt st' !! "cursor" = Some (DynX.cursor st').
Proof.
  assert (H0 : 0 <= DynX.failures paging_state) by (simpl; lia).
  assert (Hrun : exists st' w',
            DynX.body "q" (VStr "Latest") paging_state failing_world
            = Done st' w')
    by (vm_compute; by eexists _, _).
  split; [exact H0|]. destruct Hrun as (st' & w' & Hrun). exists st', w'.
  split; [exact Hrun|].
  destruct (X15_dynx_round_ends_saved "q" (VStr "Latest") paging_state st'
              failing_world w' H0 Hrun) as (Hck & _ & Hcur & _).
  by split.
Defined.

(** ** Further properties: [main2.py] *)

Lemma write_numbered_spec i tws rows w :
  tweets_file w = Some rows ->
  exists w',
    Main2.write_numbered i tws w = Done tt w'
    /\ tweets_file w'
       = Some (rows ++ imap (fun k tw => Main2.numbered_row (i + Z.of_nat k) tw) tws)
    /\ replies w' = replies w
    /\ checkpoint_file w' = checkpoint_file w.
Proof.
  revert i rows w. induction tws as [|tw tws IH]; intros i rows w Hf.
  - exists w. simpl. by rewrite app_nil_r.
  - cbn [Main2.write_numbered]. unfold bind at 1, writerow at 1.
    rewrite Hf. cbn [default].
    match goal with |- context [Main2.write_numbered _ _ ?w1] =>
      destruct (IH (i + 1) (rows ++ [Main2.numbered_row i tw]) w1 eq_refl)
        as (w' & -> & Hf' & Hr & Hc)
    end.
    exists w'. split; [reflexivity|]. split; [|by split].
    rewrite Hf', imap_cons, <- app_assoc. simpl. rewrite Z.add_0_r.
    do 3 f_equal. apply imap_ext. intros k x _. simpl. f_equal. lia.
Qed.

(** X16.  [run_all_operations] of [main2.py].  Without a client it dies
    with [NameError], since [tweets] is read after the [if client:] that
    binds it.  With a client and a page of tweets, [tweets_2.csv] is
    replaced, whatever it held, by the header row followed by one row per
    tweet, numbered from 1 in page order.  When the search fails or the
    page is empty the file is not touched. *)
Theorem X16_main2_output (w0 : World) (rs : list Reply) :
  (forall w, Main2.run_all_operations false w = Done Main2.NameError w)
  /\ (forall p, tweets p <> [] ->
        exists w',
          Main2.run_all_operations true (restart w0 (Result p :: rs))
          = Done Main2.Completed w'
          /\ tweets_file w'
             = Some (Main2.HEADER
                     :: imap (fun k tw => Main2.numbered_row (1 + Z.of_nat k) tw)
                          (tweets p))
          /\ replies w' = rs)
  /\ (forall r, (forall p, r = Result p -> tweets p = []) ->
        exists w',
          Main2.run_all_operations true (restart w0 (r :: rs))
          = Done Main2.Completed w'
          /\ tweets_file w' = tweets_file w0
          /\ replies w' = rs).
Proof.
  split; [reflexivity|]. split.
  - intros p Hp. unfold Main2.run_all_operations, Main2.search_tweets.
    unfold bind at 1 2, search_tweet. cbn [replies restart]. unfold ret at 1.
    destruct (tweets p) as [|tw tws] eqn:Htw; [done|].
    unfold bind at 1, Main2.open_write. unfold bind at 1, writerow at 1.
    unfold bind at 1.
    match goal with |- context [Main2.write_numbered 1 ?l ?w1] =>
      destruct (write_numbered_spec 1 l [Main2.HEADER] w1 eq_refl)
        as (w' & Hw & Hf & Hr & _)
    end.
    rewrite Hw. exists w'. split; [reflexivity|].
    split; [exact Hf|exact Hr].
  - intros r Hr. unfold Main2.run_all_operations, Main2.search_tweets.
    unfold bind at 1 2, search_tweet. cbn [replies restart].
    destruct r as [p|a|]; unfold ret; try by eexists.
    rewrite (Hr p eq_refl). by eexists.
Qed.

Lemma X16_main2_output_witness :
  tweets (mkPage [sample_tweet "7"; sample_tweet "8"] None NextRaises) <> []
  /\ exists w',
       Main2.run_all_operations true
         (restart resumed_world
            [Result (mkPage [sample_tweet "7"; sample_tweet "8"] None NextRaises)])
       = Done Main2.Completed w'
       /\ tweets_file w'
          = Some [ Main2.HEADER;
                   Main2.numbered_row 1 (sample_tweet "7");
                   Main2.numbered_row 2 (sample_tweet "8") ].
Proof.
  assert (H1 : tweets (mkPage [sample_tweet "7"; sample_tweet "8"] None NextRaises)
               <> []) by discriminate.
  split; [exact H1|].
  destruct (X16_main2_output resumed_world []) as (_ & Hpage & _).
  destruct (Hpage _ H1) as (w' & Hrun & Hf & _).
  exists w'. split; [exact Hrun|exact Hf].
Defined.

(** ** Further properties: the count and the rows of the CSV file *)

Lemma tweet3_handle_rows st result w st1 w1 :
  Tweet1k_3.handle st result w = Done st1 w1 ->
  row_count (tweets_file w1) - row_count (tweets_file w)
  = Tweet1k_3.collected st1 - Tweet1k_3.collected st.
Proof.
  unfold Tweet1k_3.handle.
  destruct result as [p|]; [destruct (tweets p) as [|tw tws]|];
    try (intros [= <- <-]; simpl; lia).
  unfold bind at 1. rewrite save_tweets_batch_spec.
  generalize (fresh (tw :: tws) (Tweet1k_3.existing_ids st)). intros written.
  unfold bind, now_isoformat, call_next, ret. intros [= <- <-].
  cbn [Tweet1k_3.collected emit tweets_file].
  rewrite write_rows_tweets_file. unfold row_count.
  destruct written as [|x l]; simpl; [lia|].
  rewrite length_app. simpl. rewrite length_map. lia.
Qed.

Lemma tweet3_body_rows H st w st' w' :
  Tweet1k_3.body H st w = Done st' w' ->
  row_count (tweets_file w') - row_count (tweets_file w)
  = Tweet1k_3.collected st' - Tweet1k_3.collected st.
Proof.
  unfold Tweet1k_3.body. intros Hb.
  apply bind_done in Hb as (result & w1 & Hs & Hb).
  apply bind_done in Hb as (st1 & w2 & Hh & Hcw).
  pose proof (keeps_safe_search Tweet1k_3.QUERY Tweet1k_3.PRODUCT
                Tweet1k_3.BATCH_SIZE (Tweet1k_3.cursor st) w) as Hk.
  unfold Tweet1k_3.safe_search in Hs. rewrite Hs in Hk. simpl in Hk.
  apply tweet3_handle_rows in Hh. rewrite Hk in Hh.
  destruct (tweet3_checkpoint_and_wait_journal H st1 w2)
    as (delay & w3 & Hcw' & _ & Hf & _).
  cbn zeta in Hcw'. rewrite Hcw' in Hcw. injection Hcw as <- <-.
  rewrite Hf. exact Hh.
Qed.

(** X17.  In [1k.tweet_3.py] the count follows the CSV file: over any run
    of the loop that returns, the file has grown by exactly as many rows as
    the count of collected tweets has grown.  A run started with neither a
    checkpoint nor a CSV file therefore ends with one row more than its
    count, the header. *)
Theorem X17_tweet3_count_follows_rows (H : string) (rounds : nat) :
  (forall st st' w w',
     Tweet1k_3.loop H rounds st w = Done st' w' ->
     row_count (tweets_file w') - row_count (tweets_file w)
     = Tweet1k_3.collected st' - Tweet1k_3.collected st)
  /\ (forall st' w w',
        tweets_file w = None -> checkpoint_file w = None ->
        Tweet1k_3.run H rounds w = Done st' w' ->
        row_count (tweets_file w') = 1 + Tweet1k_3.collected st').
Proof.
  assert (Hloop : forall rounds st st' w w',
            Tweet1k_3.loop H rounds st w = Done st' w' ->
            row_count (tweets_file w') - row_count (tweets_file w)
            = Tweet1k_3.collected st' - Tweet1k_3.collected st).
  { clear rounds. intros rounds.
    induction rounds as [|rounds IH]; intros st st' w w';
      cbn [Tweet1k_3.loop]; destruct (_ && _);
      try (intros [= <- <-]; lia); try discriminate.
    intros Hl. apply bind_done in Hl as (st1 & w1 & Hb & Hl).
    apply tweet3_body_rows in Hb. apply IH in Hl. lia. }
  split; [apply Hloop|].
  intros st' w w' Hf Hc Hrun. unfold Tweet1k_3.run in Hrun.
  apply bind_done in Hrun as ([[[count cursor] ids] ckpt] & w1 & Hinit & Hrun).
  unfold Tweet1k_3.init, Tweet1k_3.load_checkpoint in Hinit.
  unfold bind at 1 in Hinit. rewrite Hc in Hinit.
  cbn [Tweet1k_3.load_checkpoint_of] in Hinit.
  unfold getitem at 1, Tweet1k_3.DEFAULT_CKPT at 1 in Hinit.
  rewrite lookup_insert_ne, lookup_insert_eq in Hinit by done.
  unfold bind at 1, ret at 1 in Hinit.
  unfold getitem at 1, Tweet1k_3.DEFAULT_CKPT at 1 in Hinit.
  rewrite lookup_insert_ne, lookup_insert_ne, lookup_insert_eq in Hinit by done.
  unfold bind, ret, read_existing_ids, is_new_file, open_append, writerow in Hinit.
  rewrite Hf in Hinit. cbn [new_file default app] in Hinit.
  injection Hinit as <- <- <- <- <-.
  unfold as_int in Hrun. unfold bind at 1, ret at 1 in Hrun.
  apply Hloop in Hrun. cbn [Tweet1k_3.collected] in Hrun.
  unfold row_count in *. simpl in Hrun. lia.
Qed.

Lemma X17_tweet3_count_follows_rows_witness :
  exists st' w',
    Tweet1k_3.loop "0123456789" 3 (Tweet1k_3.mkLoop 999 VNone 0 ∅ ∅)
      last_page_service = Done st' w'
    /\ row_count (tweets_file w') - row_count (tweets_file last_page_service)
       = Tweet1k_3.collected st' - 999.
Proof.
  assert (Hrun : exists st' w',
            Tweet1k_3.loop "0123456789" 3 (Tweet1k_3.mkLoop 999 VNone 0 ∅ ∅)
              last_page_service = Done st' w')
    by (vm_compute; by eexists _, _).
  destruct Hrun as (st' & w' & Hrun). exists st', w'. split; [exact Hrun|].
  destruct (X17_tweet3_count_follows_rows "0123456789" 3) as (Hloop & _).
  exact (Hloop _ _ _ _ Hrun).
Defined.

(** ** Further properties: the checkpoint of [1k.tweet_2.py] *)

(** X18.  What [1k.tweet_2.py] reads back from [checkpoint.json].  After
    its own save, every field of the loop state comes back as it was
    saved.  After a save of [1k.tweet.py], which writes the same file name
    with the keys count, cursor and product only, the count and the cursor
    are taken over and the strategy, failure and variation fields silently
    start from their defaults.  With no file, or one that does not parse,
    all fields are the defaults. *)
Theorem X18_tweet2_checkpoint_read_back (st : Tweet1k_2.Loop) (w : World)
    (n : Z) (cur prod : PyVal) :
  (let w' := world_of (Tweet1k_2.save_checkpoint (Tweet1k_2.checkpoint_of st) w) in
   Tweet1k_2.read_checkpoint w'
   = Done (Tweet1k_2.mkResumed
             (VInt (Tweet1k_2.collected_count st)) (Tweet1k_2.cursor st)
             (VInt (Tweet1k_2.strategy_index st))
             (Tweet1k_2.last_successful_strategy st)
             (VInt (Tweet1k_2.consecutive_failures st))
             (Tweet1k_2.last_success_time st)
             (VInt (Tweet1k_2.query_variations st))) w')
  /\ (let w' := world_of (Tweet1k.save_checkpoint n cur prod w) in
      Tweet1k_2.read_checkpoint w'
      = Done (Tweet1k_2.mkResumed (VInt n) cur (VInt 0) (VInt 0) (VInt 0) VNone
                (VInt 0)) w')
  /\ Tweet1k_2.read_checkpoint (with_checkpoint w None)
     = Done (Tweet1k_2.mkResumed (VInt 0) VNone (VInt 0) (VInt 0) (VInt 0) VNone
               (VInt 0)) (with_checkpoint w None)
  /\ Tweet1k_2.read_checkpoint (with_checkpoint w (Some Unparsable))
     = Done (Tweet1k_2.mkResumed (VInt 0) VNone (VInt 0) (VInt 0) (VInt 0) VNone
               (VInt 0)) (with_checkpoint w (Some Unparsable)).
Proof.
  repeat split; cbn zeta;
    unfold Tweet1k_2.read_checkpoint, Tweet1k_2.load_checkpoint,
      Tweet1k_2.save_checkpoint, Tweet1k.save_checkpoint, dump_checkpoint,
      Tweet1k_2.checkpoint_of, Tweet1k_2.DEFAULT, json_getitem,
      json_get_default, getitem, dict_get, bind, ret;
    cbn [world_of checkpoint_file emit with_checkpoint json_load];
    repeat (rewrite ?lookup_insert_eq; rewrite ?lookup_insert_ne by done);
    rewrite ?lookup_empty; reflexivity.
Qed.
